(* Shallow embedding of the alpenhorn PKG extraction path (pkg/extract.go)
   and of the client's dialing round handlers (dialing.go, persist.go).

   Go values are modelled as follows:
   - []byte and fixed arrays as [list Byte.byte]; a pointer to an array
     ( *[32]byte ) as [option bytes], [None] being the nil pointer;
   - uint32 round numbers as [Z];
   - a Go runtime panic (nil dereference, index out of range, explicit
     panic) as a [Panic] outcome that stops the computation;
   - libraries outside this repository (ed25519, IBE, BLS, nacl/box,
     onionbox, the configuration service, the CDN, the file system) as
     fields of a record of external operations, over which every theorem
     is quantified, and I/O results as explicit oracle arguments. *)

From Stdlib Require Import ZArith String List Lia.
From stdpp Require Import base gmap list strings.
From Stdlib Require Import Floats.

Definition bytes := list Byte.byte.

#[global] Instance byte_eq_decision : EqDecision Byte.byte := Byte.byte_eq_dec.

(** Big-endian encoding of a uint32, as [binary.Write(buf, binary.BigEndian, x)]. *)
Definition byte_of_Z (z : Z) : Byte.byte :=
  match Byte.of_N (Z.to_N (z mod 256)) with Some b => b | None => Byte.x00 end.

Definition be32 (x : Z) : bytes :=
  [byte_of_Z (Z.shiftr x 24); byte_of_Z (Z.shiftr x 16);
   byte_of_Z (Z.shiftr x 8); byte_of_Z x].

Module PKG.

(** Error kinds of the PKG (errors.go codes used by extract). *)
Inductive ErrorCode :=
| ErrBadRequestJSON
| ErrRoundNotFound
| ErrInvalidUserLongTermKey
| ErrInvalidUsername
| ErrNotRegistered
| ErrDatabaseError
| ErrInvalidSignature.

(** Outcome of a Go function returning [(T, error)], or panicking. *)
Inductive result (A : Type) :=
| Ok (a : A)
| Err (e : ErrorCode)
| Panic (msg : string).
Arguments Ok {A} a.
Arguments Err {A} e.
Arguments Panic {A} msg.

Definition ed25519_PublicKeySize : nat := 32.

Record extractArgs := mkExtractArgs {
  args_Round : Z;
  args_Username : string;
  (* ReturnKey *[32]byte: None is a nil pointer (field absent from the JSON body) *)
  args_ReturnKey : option bytes;
  args_UserLongTermKey : bytes;
  args_ServerSigningKey : bytes;
  args_Signature : bytes
}.

Record extractReply := mkExtractReply {
  reply_Round : Z;
  reply_Username : string;
  reply_EncryptedPrivateKey : bytes;
  reply_Signature : bytes;
  reply_IdentitySig : bytes
}.

Record Attestation := mkAttestation {
  AttestKey : bytes;          (* the BLS public key, kept opaque *)
  UserIdentity : bytes;       (* *[64]byte *)
  att_UserLongTermKey : bytes
}.

(** The persisted user record: only the login key is read by extract. *)
Record userState := mkUserState { LoginKey : bytes }.

(** Operations extract uses that are not part of extract.go. *)
Record Externals := mkExternals {
  (* pkg/username.go: validates a username and maps it to its 64-byte identity *)
  UsernameToIdentity : string -> option bytes;
  (* userState.Unmarshal and lastExtraction.Marshal *)
  userState_Unmarshal : bytes -> option userState;
  lastExtraction_Marshal : Z -> Z -> bytes;
  (* ed25519.Verify(publicKey, message, sig) and ed25519.Sign(privateKey, message) *)
  ed25519_Verify : bytes -> bytes -> bytes -> bool;
  ed25519_Sign : bytes -> bytes -> bytes;
  (* ibe.Extract(masterPrivateKey, id).MarshalBinary() *)
  ibe_Extract : bytes -> bytes -> bytes;
  (* box.Seal(out, message, zeroNonce, peersPublicKey, privateKey) *)
  box_Seal : bytes -> bytes -> bytes -> bytes -> bytes;
  (* AttestKey.MarshalBinary() and bls.Sign(privateKey, message) *)
  bls_MarshalBinary : bytes -> bytes;
  bls_Sign : bytes -> bytes -> bytes
}.

Record pkgRoundState := mkPkgRoundState {
  masterPrivateKey : bytes;
  blsPrivateKey : bytes;
  blsPublicKey : bytes
}.

Inductive dbSuffix := registrationSuffix | lastExtractionSuffix.

#[global] Instance dbSuffix_eq_decision : EqDecision dbSuffix.
Proof. solve_decision. Defined.

(** dbUserKey(id, suffix) *)
Definition dbKey := (bytes * dbSuffix)%type.
Definition dbUserKey (id : bytes) (suffix : dbSuffix) : dbKey := (id, suffix).

(** The badger store as an association list, most recent write first. *)
Fixpoint db_get (d : list (dbKey * bytes)) (k : dbKey) : option bytes :=
  match d with
  | [] => None
  | (k', v) :: d' => if decide (k = k') then Some v else db_get d' k
  end.

Definition db_set (d : list (dbKey * bytes)) (k : dbKey) (v : bytes) :=
  (k, v) :: filter (fun kv => kv.1 <> k) d.

Record Server := mkServer {
  rounds : gmap Z pkgRoundState;
  db : list (dbKey * bytes);
  publicKey : bytes;
  privateKey : bytes
}.

(** Observable steps of an extraction, in the order they happen. *)
Inductive PkgEvent :=
| EvDbCommit (k : dbKey) (v : bytes)
| EvReplySigned (r : extractReply).

Record PkgState := mkPkgState {
  srv : Server;
  clock : Z;                  (* time.Now().Unix() *)
  events : list PkgEvent
}.

(** Oracle for the nondeterminism of one call: I/O faults of the store,
    the randomness of box.GenerateKey and the time crypto work takes. *)
Record ExtractEnv := mkExtractEnv {
  env_get_io_error : bool;            (* tx.Get fails with an I/O error *)
  env_commit_io_error : bool;         (* db.Update fails to commit *)
  env_box_key : option (bytes * bytes); (* box.GenerateKey: None if rand fails *)
  env_step_time : N                   (* seconds each crypto step takes *)
}.

Definition M (A : Type) := PkgState -> result A * PkgState.

Definition ret {A} (a : A) : M A := fun s => (Ok a, s).
Definition bind {A B} (m : M A) (k : A -> M B) : M B :=
  fun s => match m s with
           | (Ok a, s') => k a s'
           | (Err e, s') => (Err e, s')
           | (Panic p, s') => (Panic p, s')
           end.
Definition throw {A} (e : ErrorCode) : M A := fun s => (Err e, s).
Definition go_panic {A} (p : string) : M A := fun s => (Panic p, s).
Definition get_state : M PkgState := fun s => (Ok s, s).
Definition emit (ev : PkgEvent) : M unit :=
  fun s => (Ok tt, mkPkgState (srv s) (clock s) (events s ++ [ev])).
Definition now : M Z := fun s => (Ok (clock s), s).
Definition tick (env : ExtractEnv) : M unit :=
  fun s => (Ok tt, mkPkgState (srv s) (clock s + Z.of_N (env_step_time env)) (events s)).

Notation "'let*' x ':=' c1 'in' c2" := (bind c1 (fun x => c2))
  (at level 200, x name, c1 at level 100, c2 at level 200).

Section Extract.

Variable X : Externals.

(** ValidUsernameToIdentity panics on a username it does not accept. *)
Definition ValidUsernameToIdentity (u : string) : option bytes :=
  UsernameToIdentity X u.

(** extractArgs.msg; [None] is a panic (invalid username, or nil ReturnKey
    dereferenced by [a.ReturnKey[:]]). *)
Definition extractArgs_msg (a : extractArgs) : option bytes :=
  match ValidUsernameToIdentity (args_Username a) with
  | None => None
  | Some id =>
    match args_ReturnKey a with
    | None => None
    | Some rk =>
      Some (list_byte_of_string "ExtractArgs" ++ args_ServerSigningKey a
            ++ be32 (args_Round a) ++ id ++ rk ++ args_UserLongTermKey a)
    end
  end.

Definition extractArgs_Verify (a : extractArgs) (loginKey : bytes) : option bool :=
  match extractArgs_msg a with
  | None => None
  | Some m => Some (ed25519_Verify X loginKey m (args_Signature a))
  end.

(** extractReply.msg *)
Definition extractReply_msg (r : extractReply) : option bytes :=
  match ValidUsernameToIdentity (reply_Username r) with
  | None => None
  | Some id =>
    Some (list_byte_of_string "ExtractReply" ++ be32 (reply_Round r) ++ id
          ++ reply_EncryptedPrivateKey r)
  end.

Definition extractReply_Sign (r : extractReply) (key : bytes) : option extractReply :=
  match extractReply_msg r with
  | None => None
  | Some m =>
    Some (mkExtractReply (reply_Round r) (reply_Username r)
            (reply_EncryptedPrivateKey r) (ed25519_Sign X key m) (reply_IdentitySig r))
  end.

(** extractArgs.Sign *)
Definition extractArgs_Sign (a : extractArgs) (loginKey : bytes) : option extractArgs :=
  match extractArgs_msg a with
  | None => None
  | Some m =>
    Some (mkExtractArgs (args_Round a) (args_Username a) (args_ReturnKey a)
            (args_UserLongTermKey a) (args_ServerSigningKey a) (ed25519_Sign X loginKey m))
  end.

(** extractReply.Verify *)
Definition extractReply_Verify (r : extractReply) (key : bytes) : option bool :=
  match extractReply_msg r with
  | None => None
  | Some m => Some (ed25519_Verify X key m (reply_Signature r))
  end.

(** Attestation.Marshal *)
Definition Attestation_Marshal (a : Attestation) : bytes :=
  bls_MarshalBinary X (AttestKey a) ++ UserIdentity a ++ att_UserLongTermKey a.

(** Server.getUser with tx = nil. *)
Definition getUser (env : ExtractEnv) (username : string) : M (userState * bytes) :=
  match UsernameToIdentity X username with
  | None => throw ErrInvalidUsername
  | Some id =>
    let* s := get_state in
    if env_get_io_error env then throw ErrDatabaseError else
    match db_get (db (srv s)) (dbUserKey id registrationSuffix) with
    | None => throw ErrNotRegistered
    | Some data =>
      match userState_Unmarshal X data with
      | None => throw ErrDatabaseError
      | Some user => ret (user, id)
      end
    end
  end.

(** srv.db.Update(func(tx) { return tx.Set(key, value) }) *)
Definition db_update (env : ExtractEnv) (k : dbKey) (v : bytes) : M unit :=
  fun s =>
    if env_commit_io_error env then (Err ErrDatabaseError, s)
    else (Ok tt,
          mkPkgState (mkServer (rounds (srv s)) (db_set (db (srv s)) k v)
                        (publicKey (srv s)) (privateKey (srv s)))
                     (clock s) (events s ++ [EvDbCommit k v])).

Definition zeroNonceSeal (env : ExtractEnv) (pk : bytes) (idKeyBytes : bytes)
    (args : extractArgs) (sk : bytes) : M bytes :=
  match args_ReturnKey args with
  | None => go_panic "nil pointer dereference"
  | Some rk => ret (box_Seal X pk idKeyBytes rk sk)
  end.

(** Server.extract *)
Definition extract (env : ExtractEnv) (args : extractArgs) : M extractReply :=
  let* s := get_state in
  match rounds (srv s) !! args_Round args with
  | None => throw ErrRoundNotFound
  | Some st =>
    if negb (Nat.eqb (length (args_UserLongTermKey args)) ed25519_PublicKeySize)
    then throw ErrInvalidUserLongTermKey else
    let* uid := getUser env (args_Username args) in
    let user := uid.1 in
    let id := uid.2 in
    match extractArgs_Verify args (LoginKey user) with
    | None => go_panic "nil pointer dereference"
    | Some false => throw ErrInvalidSignature
    | Some true =>
      let* t := now in
      let* _ := db_update env (dbUserKey id lastExtractionSuffix)
                          (lastExtraction_Marshal X (args_Round args) t) in
      let idKeyBytes := ibe_Extract X (masterPrivateKey st) id in
      let* _ := tick env in
      match env_box_key env with
      | None => go_panic "box.GenerateKey"
      | Some (pk, sk) =>
        let* ctxt := zeroNonceSeal env pk idKeyBytes args sk in
        let* _ := tick env in
        let attestation := mkAttestation (blsPublicKey st) id (args_UserLongTermKey args) in
        let idSig := bls_Sign X (blsPrivateKey st) (Attestation_Marshal attestation) in
        let* _ := tick env in
        let reply := mkExtractReply (args_Round args) (args_Username args) ctxt [] idSig in
        match extractReply_Sign reply (privateKey (srv s)) with
        | None => go_panic "ValidUsernameToIdentity"
        | Some signed =>
          let* _ := tick env in
          let* _ := emit (EvReplySigned signed) in
          ret signed
        end
      end
    end
  end.

(** The HTTP response written by extractHandler. *)
Inductive Response :=
| RespError (e : ErrorCode)
| RespReply (r : extractReply).

(** Server.extractHandler, after JSON decoding: [None] is a body that
    failed to decode. *)
Definition extractHandler (env : ExtractEnv) (decoded : option extractArgs) : M Response :=
  match decoded with
  | None => ret (RespError ErrBadRequestJSON)
  | Some a =>
    fun s =>
      let args := mkExtractArgs (args_Round a) (args_Username a) (args_ReturnKey a)
                    (args_UserLongTermKey a) (publicKey (srv s)) (args_Signature a) in
      match extract env args s with
      | (Ok r, s') => (Ok (RespReply r), s')
      | (Err e, s') => (Ok (RespError e), s')
      | (Panic p, s') => (Panic p, s')
      end
  end.

End Extract.

End PKG.

Module Dialing.

(** config.MixServer (only the key is read) and config.DialingConfig. *)
Record MixServer := mkMixServer { mixer_Key : bytes }.

Record DialingConfig := mkDialingConfig {
  MixServers : list MixServer;
  CDNServer : string
}.

(** config.SignedConfig whose Inner is a *config.DialingConfig. *)
Record SignedConfig := mkSignedConfig {
  Inner : DialingConfig;
  sc_Signed : bytes           (* the remaining signed fields, opaque here *)
}.

Record dialingRoundState := mkDialingRoundState {
  drs_Round : Z;
  drs_Config : DialingConfig;
  drs_ConfigParent : SignedConfig
}.

Record OutgoingCall := mkOutgoingCall {
  oc_Username : string;
  oc_Intent : Z;
  oc_sentRound : Z
}.

Record IncomingCall := mkIncomingCall {
  ic_Username : string;
  ic_Intent : Z;
  ic_SessionKey : bytes
}.

(** Coordinator messages. *)
Record NewRound := mkNewRound { nr_Round : Z; nr_ConfigHash : string }.
Record MixSettings := mkMixSettings {
  ms_Round : Z;
  RawServiceData : bytes;
  OnionKeys : list bytes
}.
Record MixRound := mkMixRound {
  mr_MixSettings : MixSettings;
  MixSignatures : list bytes
}.
Record MailboxURL := mkMailboxURL {
  mb_Round : Z;
  URL : string;
  NumMailboxes : Z
}.
Record OnionMsg := mkOnionMsg { om_Round : Z; om_Onion : bytes }.

Record ServiceData := mkServiceData { sd_NumMailboxes : Z }.
Record MixMessage := mkMixMessage { mm_Mailbox : Z; mm_Token : bytes }.

(** bloom.Filter; [zeroFilter] is the value of new(bloom.Filter). *)
Record bloomFilter := mkBloomFilter { numHashes : Z; filterData : bytes }.
Definition zeroFilter : bloomFilter := mkBloomFilter 0 [].

(** Modelled from the spec: the key wheel (package keywheel, not under
    src/). Each friend has a secret valid from round [we_Round] on; the
    secret of a later round is obtained by ratcheting; IncomingDialTokens,
    SessionKey and EraseKeys are the operations of section 4.G. *)
Record wheelEntry := mkWheelEntry { we_Round : Z; we_Secret : bytes }.

Record UserDialTokens := mkUserDialTokens {
  FromUsername : string;
  Tokens : list bytes         (* indexed by intent *)
}.

(** Operations of other packages and libraries used by the handlers. *)
Record Externals := mkExternals {
  SignedConfig_Hash : SignedConfig -> string;
  (* ed25519.Verify on 32-byte public keys; it panics on other keys *)
  ed25519_Verify : bytes -> bytes -> bytes -> bool;
  ServiceData_Unmarshal : bytes -> option ServiceData;
  SigningMessage : MixSettings -> bytes;
  computeKeys_token : OutgoingCall -> bytes;
  usernameToMailbox : string -> Z -> Z;
  (* onionbox.Seal(mustMarshal(m), mixnet.ForwardNonce(round), onionKeys) *)
  onion_Seal : MixMessage -> Z -> list bytes -> bytes;
  (* bloom.Filter.UnmarshalBinary: the decoded filter, or None on error *)
  bloom_UnmarshalBinary : bytes -> option bloomFilter;
  bloom_Test : bloomFilter -> bytes -> bool;
  (* key wheel primitives *)
  wheel_ratchet : bytes -> bytes;
  wheel_token : bytes -> string -> Z -> Z -> bytes;
  wheel_sessionKey : bytes -> Z -> bytes;
  IntentMax : Z
}.

(** Results of the blocking I/O the handlers perform. *)
Record IO := mkIO {
  io_FetchAndVerifyChain : SignedConfig -> string -> option (list SignedConfig);
  io_fetchMailbox : string -> string -> Z -> option bytes;
  io_WriteFileAtomic : string -> bool      (* true: the write succeeded *)
}.

(** Calls to the application handler, the configuration service, the
    file system and the coordinator connection. *)
Inductive Event :=
| EvHandlerError (msg : string)
| EvHandlerNewConfig (configs : list SignedConfig)
| EvHandlerSendingCall (call : OutgoingCall)
| EvHandlerReceivedCall (call : IncomingCall)
| EvFetchChain (from : SignedConfig) (hash : string)
| EvWriteClient (path : string) (ok : bool)
| EvWriteKeywheel (path : string) (w : gmap string wheelEntry) (ok : bool)
| EvSend (tag : string) (m : OnionMsg).

Record Client := mkClient {
  Username : string;
  ClientPersistPath : string;
  KeywheelPersistPath : string;
  dialingRounds : gmap Z dialingRoundState;
  dialingConfig : SignedConfig;
  dialingConfigHash : string;
  outgoingCalls : list OutgoingCall;
  lastDialingRound : Z;
  wheel : gmap string wheelEntry
}.

Definition set_dialingRounds (c : Client) (m : gmap Z dialingRoundState) : Client :=
  mkClient (Username c) (ClientPersistPath c) (KeywheelPersistPath c) m
    (dialingConfig c) (dialingConfigHash c) (outgoingCalls c) (lastDialingRound c) (wheel c).
Definition set_dialingConfig (c : Client) (sc : SignedConfig) (h : string) : Client :=
  mkClient (Username c) (ClientPersistPath c) (KeywheelPersistPath c) (dialingRounds c)
    sc h (outgoingCalls c) (lastDialingRound c) (wheel c).
Definition set_outgoingCalls (c : Client) (q : list OutgoingCall) : Client :=
  mkClient (Username c) (ClientPersistPath c) (KeywheelPersistPath c) (dialingRounds c)
    (dialingConfig c) (dialingConfigHash c) q (lastDialingRound c) (wheel c).
Definition set_lastDialingRound (c : Client) (r : Z) : Client :=
  mkClient (Username c) (ClientPersistPath c) (KeywheelPersistPath c) (dialingRounds c)
    (dialingConfig c) (dialingConfigHash c) (outgoingCalls c) r (wheel c).
Definition set_wheel (c : Client) (w : gmap string wheelEntry) : Client :=
  mkClient (Username c) (ClientPersistPath c) (KeywheelPersistPath c) (dialingRounds c)
    (dialingConfig c) (dialingConfigHash c) (outgoingCalls c) (lastDialingRound c) w.

Record DState := mkDState { cl : Client; trace : list Event }.

(** A handler either returns or panics (crashing the client). *)
Inductive outcome (A : Type) := Done (a : A) | Crash (msg : string).
Arguments Done {A} a.
Arguments Crash {A} msg.

Definition CM (A : Type) := DState -> outcome A * DState.

Definition ret {A} (a : A) : CM A := fun s => (Done a, s).
Definition bind {A B} (m : CM A) (k : A -> CM B) : CM B :=
  fun s => match m s with
           | (Done a, s') => k a s'
           | (Crash p, s') => (Crash p, s')
           end.
Definition crash {A} (p : string) : CM A := fun s => (Crash p, s).
Definition client : CM Client := fun s => (Done (cl s), s).
Definition put_client (c : Client) : CM unit := fun s => (Done tt, mkDState c (trace s)).
Definition emit (ev : Event) : CM unit :=
  fun s => (Done tt, mkDState (cl s) (trace s ++ [ev])).

Notation "'let*' x ':=' c1 'in' c2" := (bind c1 (fun x => c2))
  (at level 200, x name, c1 at level 100, c2 at level 200).

Fixpoint iter_ratchet (ratchet : bytes -> bytes) (n : nat) (b : bytes) : bytes :=
  match n with O => b | S n' => iter_ratchet ratchet n' (ratchet b) end.

Fixpoint range (n : nat) : list Z :=
  match n with O => [] | S n' => range n' ++ [Z.of_nat n'] end.

Section Handlers.

Variable X : Externals.

(** Modelled from the spec: Wheel.IncomingDialTokens(self, round, maxIntent). *)
Definition IncomingDialTokens (w : gmap string wheelEntry) (self : string) (round : Z)
    (maxIntent : Z) : list UserDialTokens :=
  omap (fun fe : string * wheelEntry =>
          let e := fe.2 in
          if Z.leb (we_Round e) round then
            let s := iter_ratchet (wheel_ratchet X) (Z.to_nat (round - we_Round e)) (we_Secret e) in
            Some (mkUserDialTokens fe.1
                    (map (fun intent => wheel_token X s self round intent)
                         (range (Z.to_nat maxIntent))))
          else None)
       (map_to_list w).

(** Modelled from the spec: Wheel.SessionKey(from, round); nil if unknown. *)
Definition SessionKey (w : gmap string wheelEntry) (from : string) (round : Z) : bytes :=
  match w !! from with
  | Some e =>
    if Z.leb (we_Round e) round then
      wheel_sessionKey X (iter_ratchet (wheel_ratchet X) (Z.to_nat (round - we_Round e)) (we_Secret e)) round
    else []
  | None => []
  end.

(** Modelled from the spec: Wheel.EraseKeys(round) moves every secret of
    round [round] or earlier forward to round [round + 1]. *)
Definition EraseKeys (w : gmap string wheelEntry) (round : Z) : gmap string wheelEntry :=
  fmap (fun e =>
          if Z.leb (we_Round e) round then
            mkWheelEntry (round + 1)
              (iter_ratchet (wheel_ratchet X) (Z.to_nat (round + 1 - we_Round e)) (we_Secret e))
          else e) w.

(** Client.persistClient: json.MarshalIndent then WriteFileAtomic. *)
Definition persistClient (io : IO) : CM (option string) :=
  let* c := client in
  let ok := io_WriteFileAtomic io (ClientPersistPath c) in
  let* _ := emit (EvWriteClient (ClientPersistPath c) ok) in
  ret (if ok then None else Some "write client state"%string).

(** Client.persistKeywheel: wheel.MarshalBinary then WriteFileAtomic. *)
Definition persistKeywheel (io : IO) : CM (option string) :=
  let* c := client in
  let ok := io_WriteFileAtomic io (KeywheelPersistPath c) in
  let* _ := emit (EvWriteKeywheel (KeywheelPersistPath c) (wheel c) ok) in
  ret (if ok then None else Some "write keywheel"%string).

(** Client.persistLocked *)
Definition persistLocked (io : IO) : CM (option string) :=
  let* c := client in
  let* err := if decide (ClientPersistPath c <> ""%string) then persistClient io
              else ret None in
  if decide (KeywheelPersistPath c <> ""%string) then
    let* e := persistKeywheel io in
    ret (match err with None => e | Some _ => err end)
  else ret err.

(** Client.newDialingRound *)
Definition newDialingRound (io : IO) (v : NewRound) : CM unit :=
  let* c := client in
  match dialingRounds c !! nr_Round v with
  | Some st =>
    if negb (String.eqb (SignedConfig_Hash X (drs_ConfigParent st)) (nr_ConfigHash v))
    then emit (EvHandlerError "coordinator announced different configs")
    else ret tt
  | None =>
    (* common case *)
    if String.eqb (nr_ConfigHash v) (dialingConfigHash c) then
      put_client (set_dialingRounds c
        (<[nr_Round v := mkDialingRoundState (nr_Round v) (Inner (dialingConfig c))
                                               (dialingConfig c)]> (dialingRounds c)))
    else
      let* _ := emit (EvFetchChain (dialingConfig c) (nr_ConfigHash v)) in
      match io_FetchAndVerifyChain io (dialingConfig c) (nr_ConfigHash v) with
      | None => emit (EvHandlerError "fetching dialing config")
      | Some configs =>
        let* _ := emit (EvHandlerNewConfig configs) in
        match configs with
        | [] => crash "index out of range"
        | newConfig :: _ =>
          let* _ := put_client (set_dialingConfig c newConfig (nr_ConfigHash v)) in
          let* err := persistLocked io in
          match err with
          | Some e => crash ("failed to persist state: " ++ e)
          | None =>
            let* c' := client in
            put_client (set_dialingRounds c'
              (<[nr_Round v := mkDialingRoundState (nr_Round v) (Inner newConfig) newConfig]>
                 (dialingRounds c')))
          end
        end
      end
  end.

(** The loop [for i, mixer := range st.Config.MixServers] of
    sendDialingOnion, which indexes [v.MixSignatures[i]]. *)
Inductive verifyResult :=
| VerifyOk
| VerifyFailed (mixer : MixServer)
| VerifyIndexOutOfRange (i : nat).

Fixpoint verifyMixers (settingsMsg : bytes) (sigs : list bytes) (i : nat)
    (mixers : list MixServer) : verifyResult :=
  match mixers with
  | [] => VerifyOk
  | mixer :: rest =>
    match sigs !! i with
    | None => VerifyIndexOutOfRange i
    | Some sig =>
      if ed25519_Verify X (mixer_Key mixer) settingsMsg sig
      then verifyMixers settingsMsg sigs (S i) rest
      else VerifyFailed mixer
    end
  end.

(** Client.nextOutgoingCall *)
Definition nextOutgoingCall : CM (option OutgoingCall) :=
  let* c := client in
  match outgoingCalls c with
  | [] => ret None
  | call :: rest => let* _ := put_client (set_outgoingCalls c rest) in ret (Some call)
  end.

Definition zeroToken : bytes := repeat Byte.x00 32.

(** Client.sendDialingOnion *)
Definition sendDialingOnion (v : MixRound) : CM unit :=
  let round := ms_Round (mr_MixSettings v) in
  let* c := client in
  match dialingRounds c !! round with
  | None => emit (EvHandlerError "sendDialingOnion: round not configured")
  | Some st =>
    match ServiceData_Unmarshal X (RawServiceData (mr_MixSettings v)) with
    | None => emit (EvHandlerError "error parsing service data")
    | Some serviceData =>
      let settingsMsg := SigningMessage X (mr_MixSettings v) in
      match verifyMixers settingsMsg (MixSignatures v) 0 (MixServers (drs_Config st)) with
      | VerifyIndexOutOfRange _ => crash "index out of range"
      | VerifyFailed _ => emit (EvHandlerError "failed to verify mixnet settings")
      | VerifyOk =>
        let* c1 := client in
        let* _ := put_client (set_lastDialingRound c1 round) in
        let* call := nextOutgoingCall in
        let* mixMessage :=
          match call with
          | Some call0 =>
            let call1 := mkOutgoingCall (oc_Username call0) (oc_Intent call0) round in
            let* _ := emit (EvHandlerSendingCall call1) in
            ret (mkMixMessage (usernameToMailbox X (oc_Username call1) (sd_NumMailboxes serviceData))
                              (computeKeys_token X call1))
          | None => ret (mkMixMessage 0 zeroToken)
          end in
        let onion := onion_Seal X mixMessage round (OnionKeys (mr_MixSettings v)) in
        emit (EvSend "onion" (mkOnionMsg round onion))
      end
    end
  end.

(** The loops over [allTokens] and [user.Tokens] in scanBloomFilter. *)
Fixpoint testTokens (filter : bloomFilter) (w : gmap string wheelEntry) (round : Z)
    (from : string) (intent : Z) (tokens : list bytes) : CM unit :=
  match tokens with
  | [] => ret tt
  | token :: rest =>
    let* _ := if bloom_Test X filter token
              then emit (EvHandlerReceivedCall
                           (mkIncomingCall from intent (SessionKey w from round)))
              else ret tt in
    testTokens filter w round from (intent + 1) rest
  end.

Fixpoint testUsers (filter : bloomFilter) (w : gmap string wheelEntry) (round : Z)
    (users : list UserDialTokens) : CM unit :=
  match users with
  | [] => ret tt
  | user :: rest =>
    let* _ := testTokens filter w round (FromUsername user) 0 (Tokens user) in
    testUsers filter w round rest
  end.

(** filter := new(bloom.Filter); filter.UnmarshalBinary(mailbox), whose
    error is only reported. *)
Definition decodeFilter (mailbox : bytes) : CM bloomFilter :=
  match bloom_UnmarshalBinary X mailbox with
  | Some f => ret f
  | None => let* _ := emit (EvHandlerError "decoding bloom filter") in ret zeroFilter
  end.

(** Client.scanBloomFilter *)
Definition scanBloomFilter (io : IO) (v : MailboxURL) : CM unit :=
  let* c := client in
  match dialingRounds c !! mb_Round v with
  | None => ret tt
  | Some st =>
    let mailboxID := usernameToMailbox X (Username c) (NumMailboxes v) in
    match io_fetchMailbox io (CDNServer (drs_Config st)) (URL v) mailboxID with
    | None => emit (EvHandlerError "fetching mailbox")
    | Some mailbox =>
      let* filter := decodeFilter mailbox in
      let allTokens := IncomingDialTokens (wheel c) (Username c) (mb_Round v) (IntentMax X) in
      let* _ := testUsers filter (wheel c) (mb_Round v) allTokens in
      let* c1 := client in
      let* _ := put_client (set_wheel c1 (EraseKeys (wheel c1) (mb_Round v))) in
      let* err := persistKeywheel io in
      match err with
      | Some e => crash e
      | None => ret tt
      end
    end
  end.

(** The ReceivedCall notifications the loops of scanBloomFilter make, as
    a list. *)
Fixpoint receivedCallsOf (filter : bloomFilter) (w : gmap string wheelEntry) (round : Z)
    (from : string) (intent : Z) (tokens : list bytes) : list Event :=
  match tokens with
  | [] => []
  | token :: rest =>
    (if bloom_Test X filter token
     then [EvHandlerReceivedCall (mkIncomingCall from intent (SessionKey w from round))]
     else []) ++ receivedCallsOf filter w round from (intent + 1) rest
  end.

Fixpoint receivedCalls (filter : bloomFilter) (w : gmap string wheelEntry) (round : Z)
    (users : list UserDialTokens) : list Event :=
  match users with
  | [] => []
  | user :: rest =>
    receivedCallsOf filter w round (FromUsername user) 0 (Tokens user)
      ++ receivedCalls filter w round rest
  end.

End Handlers.

(** The file writes among a list of events. *)
Definition isWrite (ev : Event) : bool :=
  match ev with
  | EvWriteClient _ _ | EvWriteKeywheel _ _ _ => true
  | _ => false
  end.

Definition persistWrites (evs : list Event) : list Event :=
  filter (fun ev => isWrite ev = true) evs.

(** The same external operations with a bloom filter decoder that always
    returns [f]. *)
Definition decodingTo (X : Externals) (f : bloomFilter) : Externals :=
  mkExternals (SignedConfig_Hash X) (ed25519_Verify X) (ServiceData_Unmarshal X)
    (SigningMessage X) (computeKeys_token X) (usernameToMailbox X) (onion_Seal X)
    (fun _ => Some f) (bloom_Test X) (wheel_ratchet X) (wheel_token X)
    (wheel_sessionKey X) (IntentMax X).

(** The coordinator messages that dialingMux dispatches, by the names it
    registers: "newround", "mix", "mailbox" and "error". *)
Inductive CoordinatorMsg :=
| MsgNewRound (v : NewRound)
| MsgMix (v : MixRound)
| MsgMailbox (v : MailboxURL)
| MsgError (round : Z) (err : string).

(** Client.dialingRoundError: the coordinator's error is logged (log
    output is not modelled) and nothing else happens. *)
Definition dialingRoundError (round : Z) (err : string) : CM unit := ret tt.

(** Client.dialingMux: the handler each message is given to. *)
Definition dialingMux (X : Externals) (io : IO) (m : CoordinatorMsg) : CM unit :=
  match m with
  | MsgNewRound v => newDialingRound X io v
  | MsgMix v => sendDialingOnion X v
  | MsgMailbox v => scanBloomFilter X io v
  | MsgError r e => dialingRoundError r e
  end.

End Dialing.

(** Concrete instances of the external operations, used to run the
    models on sample inputs. *)
Module Samples.
Import PKG.

Definition b (s : string) : bytes := list_byte_of_string s.

(** Identities are usernames of 1 to 64 bytes padded with zeros. *)
Definition sample_UsernameToIdentity (u : string) : option bytes :=
  if (0 <? String.length u)%nat && (String.length u <=? 64)%nat
  then Some (b u ++ repeat Byte.x00 (64 - String.length u))
  else None.

(** A toy signature scheme: the signature of [m] under key [k] is [k ++ m]. *)
Definition pkgX : PKG.Externals :=
  PKG.mkExternals
    sample_UsernameToIdentity
    (fun data => match data with [] => None | _ => Some (mkUserState data) end)
    (fun r t => be32 r ++ be32 t)
    (fun pk m sig => bool_decide (sig = pk ++ m))
    (fun sk m => sk ++ m)
    (fun msk id => msk ++ id)
    (fun out m peer sk => out ++ m)
    (fun k => k)
    (fun sk m => sk).

Definition aliceId : bytes := b "alice" ++ repeat Byte.x00 59.
Definition aliceLogin : bytes := b "alice-login-key".
Definition bobId : bytes := b "bob" ++ repeat Byte.x00 61.

(** A PKG serving round 7, where alice is registered and bob's
    registration record does not decode. *)
Definition pkgState0 : PkgState :=
  mkPkgState
    (mkServer {[ 7%Z := mkPkgRoundState (b "msk") (b "bls-sk") (b "bls-pk") ]}
              [(dbUserKey aliceId registrationSuffix, aliceLogin);
               (dbUserKey bobId registrationSuffix, [])]
              (b "server-pk") (b "server-sk"))
    1000 [].

Definition signArgs (a : extractArgs) : extractArgs :=
  mkExtractArgs (args_Round a) (args_Username a) (args_ReturnKey a)
    (args_UserLongTermKey a) (args_ServerSigningKey a)
    (match extractArgs_msg pkgX a with Some m => aliceLogin ++ m | None => [] end).

(** Scenario 1 of the spec: round 7, ReturnKey [0x02; 32], UserLongTermKey [0x03; 32]. *)
Definition aliceArgs : extractArgs :=
  signArgs (mkExtractArgs 7 "alice" (Some (repeat Byte.x02 32)) (repeat Byte.x03 32)
              (b "server-pk") []).

Definition withRound (a : extractArgs) (r : Z) : extractArgs :=
  mkExtractArgs r (args_Username a) (args_ReturnKey a) (args_UserLongTermKey a)
    (args_ServerSigningKey a) (args_Signature a).
Definition withUsername (a : extractArgs) (u : string) : extractArgs :=
  mkExtractArgs (args_Round a) u (args_ReturnKey a) (args_UserLongTermKey a)
    (args_ServerSigningKey a) (args_Signature a).
Definition withReturnKey (a : extractArgs) (k : option bytes) : extractArgs :=
  mkExtractArgs (args_Round a) (args_Username a) k (args_UserLongTermKey a)
    (args_ServerSigningKey a) (args_Signature a).
Definition withLongTermKey (a : extractArgs) (k : bytes) : extractArgs :=
  mkExtractArgs (args_Round a) (args_Username a) (args_ReturnKey a) k
    (args_ServerSigningKey a) (args_Signature a).
Definition withSignature (a : extractArgs) (sig : bytes) : extractArgs :=
  mkExtractArgs (args_Round a) (args_Username a) (args_ReturnKey a)
    (args_UserLongTermKey a) (args_ServerSigningKey a) sig.

Definition envOk : ExtractEnv :=
  mkExtractEnv false false (Some (repeat Byte.x05 32, repeat Byte.x06 32)) 1.
Definition envGetFault : ExtractEnv :=
  mkExtractEnv true false (Some (repeat Byte.x05 32, repeat Byte.x06 32)) 1.
Definition envCommitFault : ExtractEnv :=
  mkExtractEnv false true (Some (repeat Byte.x05 32, repeat Byte.x06 32)) 1.

(** pkgState0 with a signing key pair that matches under the toy scheme. *)
Definition pkgState1 : PkgState :=
  mkPkgState (mkServer (rounds (srv pkgState0)) (db (srv pkgState0))
                       (b "server-key") (b "server-key"))
    1000 [].

Definition aliceReply : extractReply := mkExtractReply 7 "alice" (b "ciphertext") [] [].

End Samples.

(** Concrete instances for the dialing client. *)
Module DialingSamples.
Import Dialing.

Definition b (s : string) : bytes := list_byte_of_string s.

(** Toy signatures ([k ++ m]); a bloom filter holds one token. *)
Definition dialX : Dialing.Externals :=
  Dialing.mkExternals
    (fun sc => string_of_list_byte (sc_Signed sc))
    (fun pk m sig => bool_decide (sig = pk ++ m))
    (fun raw => match raw with [] => None | _ => Some (mkServiceData (Z.of_nat (length raw))) end)
    (fun ms => b "settings" ++ be32 (ms_Round ms))
    (fun call => b (oc_Username call) ++ be32 (oc_sentRound call))
    (fun u n => if Z.eqb n 0 then 0%Z else (Z.of_nat (String.length u) mod n + 1)%Z)
    (fun m r keys => be32 (mm_Mailbox m) ++ mm_Token m)
    (fun data => match data with [] => None | _ => Some (mkBloomFilter 1 data) end)
    (fun f token => bool_decide (filterData f = token))
    (fun s => Byte.x01 :: s)
    (fun s self r intent => s ++ be32 r ++ be32 intent)
    (fun s r => s ++ be32 r)
    3%Z.

Definition mixers3 : list MixServer :=
  [mkMixServer (b "mix-0"); mkMixServer (b "mix-1"); mkMixServer (b "mix-2")].
Definition cfgA : SignedConfig := mkSignedConfig (mkDialingConfig mixers3 "cdn") (b "H1").
Definition cfgB : SignedConfig := mkSignedConfig (mkDialingConfig mixers3 "cdn") (b "H2").

(** A client that caches config H1, knows round 5 and shares a wheel
    with alice from round 3 on. *)
Definition client0 : Client :=
  mkClient "me" "client.json" "keywheel.bin"
    {[ 5%Z := mkDialingRoundState 5 (Inner cfgA) cfgA ]}
    cfgA "H1" [] 0
    {[ "alice" := mkWheelEntry 3 (b "alice-secret") ]}.
Definition state0 : DState := mkDState client0 [].

Definition ioOk (mailbox : bytes) : IO :=
  mkIO (fun _ _ => Some [cfgB]) (fun _ _ _ => Some mailbox) (fun _ => true).

Definition settings5 : MixSettings := mkMixSettings 5 (b "service") [b "onion-key"].
Definition goodSig (i : nat) : bytes :=
  match mixers3 !! i with
  | Some m => mixer_Key m ++ SigningMessage dialX settings5
  | None => []
  end.

(** Three signatures that verify. *)
Definition mixGood : MixRound := mkMixRound settings5 [goodSig 0; goodSig 1; goodSig 2].

Definition mailbox5 : MailboxURL := mkMailboxURL 5 "https://cdn/round5" 4.


End DialingSamples.

(** persist.go: saving the client state to its file and loading it back.
    Pointers are modelled as [option] ([None] is nil); the back pointer
    [client] of a friend or friend request holds the address of the
    client it belongs to. *)
Module Persist.

Inductive res (A : Type) :=
| ROk (a : A)
| RErr (msg : string)
| RPanic (msg : string).
Arguments ROk {A} a.
Arguments RErr {A} msg.
Arguments RPanic {A} msg.

(** A friend request ( *IncomingFriendRequest and the like): its exported
    fields, kept opaque, and its unexported [client] back pointer. *)
Record Req (A : Type) := mkReq { req_body : A; req_client : option Z }.
Arguments mkReq {A} req_body req_client.
Arguments req_body {A} r.
Arguments req_client {A} r.

Record Friend := mkFriend {
  friend_Username : string;
  friend_LongTermKey : bytes;
  friend_extraData : bytes;
  friend_client : option Z
}.

Record persistedFriend := mkPersistedFriend {
  pf_Username : string;
  pf_LongTermKey : bytes;
  pf_ExtraData : bytes
}.

Section Types.
(** Types of the alpenhorn package defined outside persist.go. *)
Variables (ConnectionSettings IncomingFR OutgoingFR SentFR PkgClient : Type).

Record persistedState := mkPersistedState {
  ps_Username : string;
  ps_LongTermPublicKey : bytes;
  ps_LongTermPrivateKey : bytes;
  ps_ConnectionSettings : ConnectionSettings;
  ps_IncomingFriendRequests : list (option (Req IncomingFR));
  ps_OutgoingFriendRequests : list (option (Req OutgoingFR));
  ps_SentFriendRequests : list (option (Req SentFR));
  ps_Friends : gmap string (option persistedFriend);
  ps_Registrations : gmap string (option PkgClient)
}.

(** The fields of Client that persist.go reads or writes; [addr] is the
    address of the Client value. *)
Record Client := mkClient {
  addr : Z;
  Username : string;
  LongTermPublicKey : bytes;
  LongTermPrivateKey : bytes;
  ConnectionSettings_ : ConnectionSettings;
  incomingFriendRequests : list (option (Req IncomingFR));
  outgoingFriendRequests : list (option (Req OutgoingFR));
  sentFriendRequests : list (option (Req SentFR));
  friends : gmap string (option Friend);
  registrations : gmap string (option PkgClient);
  ClientPersistPath : string;
  KeywheelPersistPath : string
}.

(** encoding/json, and the outcome of the file writes. *)
Record Externals := mkExternals {
  json_MarshalIndent : persistedState -> option bytes;
  json_Unmarshal : bytes -> option persistedState;
  (* the zero ConnectionSettings of a new Client *)
  ConnectionSettings_zero : ConnectionSettings;
  (* ioutil2.WriteFileAtomic(path, data, 0600) succeeds *)
  WriteFileAtomic_ok : string -> bool
}.

Definition FS := gmap string bytes.

Variable X : Externals.

(** The loop [for _, req := range reqs { req.client = c }]; [None] is the
    panic on a nil request. *)
Fixpoint setClient {A} (c : Z) (reqs : list (option (Req A))) : option (list (option (Req A))) :=
  match reqs with
  | [] => Some []
  | None :: _ => None
  | Some r :: rest =>
    match setClient c rest with
    | None => None
    | Some rest' => Some (Some (mkReq (req_body r) (Some c)) :: rest')
    end
  end.

(** Client.loadStateLocked; [None] is a nil pointer dereference. *)
Definition loadStateLocked (st : persistedState) (c : Client) : option Client :=
  match setClient (addr c) (ps_IncomingFriendRequests st),
        setClient (addr c) (ps_OutgoingFriendRequests st),
        setClient (addr c) (ps_SentFriendRequests st) with
  | Some inc, Some out, Some sent =>
    if bool_decide (map_Forall (fun _ (pf : option persistedFriend) => is_Some pf)
                               (ps_Friends st)) then
      Some (mkClient (addr c) (ps_Username st) (ps_LongTermPublicKey st)
              (ps_LongTermPrivateKey st) (ps_ConnectionSettings st) inc out sent
              (fmap (M:=gmap string)
                    (option_map (fun pf => mkFriend (pf_Username pf) (pf_LongTermKey pf)
                                                    (pf_ExtraData pf) (Some (addr c))))
                    (ps_Friends st))
              (ps_Registrations st)
              (ClientPersistPath c) (KeywheelPersistPath c))
    else None
  | _, _, _ => None
  end.

(** LoadClient: [a] is the address of the new Client value. *)
Definition LoadClient (fs : FS) (clientPersistPath : string) (a : Z) : res Client :=
  match fs !! clientPersistPath with
  | None => RErr "read file"
  | Some clientData =>
    match json_Unmarshal X clientData with
    | None => RErr "json: cannot unmarshal"
    | Some st =>
      let c := mkClient a "" [] [] (ConnectionSettings_zero X) [] [] [] ∅ ∅
                 clientPersistPath "" in
      match loadStateLocked st c with
      | None => RPanic "nil pointer dereference"
      | Some c' => ROk c'
      end
    end
  end.

(** Client.persistClient; the loop over c.friends dereferences each friend. *)
Definition persistClient (c : Client) (fs : FS) : res unit * FS :=
  if bool_decide (map_Forall (fun _ (f : option Friend) => is_Some f) (friends c)) then
    let st := mkPersistedState (Username c) (LongTermPublicKey c) (LongTermPrivateKey c)
                (ConnectionSettings_ c)
                (incomingFriendRequests c) (outgoingFriendRequests c) (sentFriendRequests c)
                (fmap (M:=gmap string)
                      (option_map (fun f => mkPersistedFriend (friend_Username f)
                                              (friend_LongTermKey f) (friend_extraData f)))
                      (friends c))
                (registrations c) in
    match json_MarshalIndent X st with
    | None => (RErr "json: unsupported value", fs)
    | Some data =>
      if WriteFileAtomic_ok X (ClientPersistPath c)
      then (ROk tt, <[ClientPersistPath c := data]> fs)
      else (RErr "write file", fs)
    end
  else (RPanic "nil pointer dereference", fs).

(** What encoding/json keeps of a persistedState: the unexported [client]
    field of the friend requests is not encoded. *)
Definition dropClient {A} (reqs : list (option (Req A))) : list (option (Req A)) :=
  map (option_map (fun r => mkReq (req_body r) None)) reqs.

Definition jsonView (st : persistedState) : persistedState :=
  mkPersistedState (ps_Username st) (ps_LongTermPublicKey st) (ps_LongTermPrivateKey st)
    (ps_ConnectionSettings st)
    (dropClient (ps_IncomingFriendRequests st)) (dropClient (ps_OutgoingFriendRequests st))
    (dropClient (ps_SentFriendRequests st))
    (ps_Friends st) (ps_Registrations st).

End Types.

Arguments mkPersistedState {_ _ _ _ _}.
Arguments mkClient {_ _ _ _ _}.
Arguments mkExternals {_ _ _ _ _}.
Arguments ps_Username {_ _ _ _ _}.
Arguments ps_LongTermPublicKey {_ _ _ _ _}.
Arguments ps_LongTermPrivateKey {_ _ _ _ _}.
Arguments ps_ConnectionSettings {_ _ _ _ _}.
Arguments ps_IncomingFriendRequests {_ _ _ _ _}.
Arguments ps_OutgoingFriendRequests {_ _ _ _ _}.
Arguments ps_SentFriendRequests {_ _ _ _ _}.
Arguments ps_Friends {_ _ _ _ _}.
Arguments ps_Registrations {_ _ _ _ _}.
Arguments addr {_ _ _ _ _}.
Arguments Username {_ _ _ _ _}.
Arguments LongTermPublicKey {_ _ _ _ _}.
Arguments LongTermPrivateKey {_ _ _ _ _}.
Arguments ConnectionSettings_ {_ _ _ _ _}.
Arguments incomingFriendRequests {_ _ _ _ _}.
Arguments outgoingFriendRequests {_ _ _ _ _}.
Arguments sentFriendRequests {_ _ _ _ _}.
Arguments friends {_ _ _ _ _}.
Arguments registrations {_ _ _ _ _}.
Arguments ClientPersistPath {_ _ _ _ _}.
Arguments KeywheelPersistPath {_ _ _ _ _}.
Arguments json_MarshalIndent {_ _ _ _ _}.
Arguments json_Unmarshal {_ _ _ _ _}.
Arguments ConnectionSettings_zero {_ _ _ _ _}.
Arguments WriteFileAtomic_ok {_ _ _ _ _}.
Arguments loadStateLocked {_ _ _ _ _}.
Arguments LoadClient {_ _ _ _ _}.
Arguments persistClient {_ _ _ _ _}.
Arguments jsonView {_ _ _ _ _}.

End Persist.

(** The mixer server's main package (mixer main.go). *)
Module Mixer.

(** rand.Laplace: Mu and B are float64. *)
Record Laplace := mkLaplace { Mu : float; B : float }.

Record Config := mkConfig {
  PublicKey : bytes;
  PrivateKey : bytes;
  ListenAddr : string;
  LogsDir : string;
  AddFriendNoise : Laplace;
  DialingNoise : Laplace
}.

(** The services a mixnet.Server runs. *)
Inductive MixService :=
| AddFriendMixer (SigningKey : bytes) (noise : Laplace)
| DialingMixer (SigningKey : bytes) (noise : Laplace).

Record MixnetServer := mkMixnetServer {
  SigningKey : bytes;
  CoordinatorKey : bytes;
  Services : list (string * MixService)
}.

(** The operations main uses from outside this file, and the outcomes of
    its I/O. *)
Record Externals := mkExternals {
  (* ed25519.GenerateKey(rand.Reader); None is an error *)
  ed25519_GenerateKey : option (bytes * bytes);
  (* alplog.DefaultLogsDir(name, publicKey) *)
  DefaultLogsDir : string -> bytes -> string;
  (* confTemplate executed on a Config; None is a template error *)
  template_Execute : Config -> option bytes;
  (* ioutil.WriteFile(path, data, perm) succeeds *)
  WriteFile_ok : string -> bool;
  (* ioutil.ReadFile(path) *)
  ReadFile : string -> option bytes;
  (* toml.Unmarshal(data, conf) *)
  toml_Unmarshal : bytes -> option Config;
  (* config.StdClient.CurrentConfig(service): None is an error; Some None an
     Inner that is not an *AddFriendConfig; otherwise its Coordinator.Key *)
  CurrentConfig : string -> option (option bytes);
  (* net.Listen("tcp", addr) succeeds *)
  net_Listen_ok : string -> bool;
  (* the error grpcServer.Serve returns *)
  Serve_error : string
}.

Inductive MEvent :=
| EvWriteFile (path : string) (data : bytes) (perm : Z)
| EvReadFile (path : string)
| EvPrint (s : string)
| EvFetchConfig (service : string)
| EvRegister (srv : MixnetServer) (tlsKey : bytes)
| EvListen (addr : string)
| EvServe.

(** How the process ends: main returns, os.Exit, log.Fatal (exit status
    1) or a panic. *)
Inductive ending :=
| Returned
| Exited (code : Z)
| Fatal (msg : string)
| Panicked (msg : string).

Definition Proc (A : Type) := list MEvent -> (A + ending) * list MEvent.

Definition ret {A} (a : A) : Proc A := fun evs => (inl a, evs).
Definition bind {A B} (m : Proc A) (k : A -> Proc B) : Proc B :=
  fun evs => match m evs with
             | (inl a, evs') => k a evs'
             | (inr e, evs') => (inr e, evs')
             end.
Definition stop {A} (e : ending) : Proc A := fun evs => (inr e, evs).
Definition emit (ev : MEvent) : Proc unit := fun evs => (inl tt, evs ++ [ev]).

Notation "'let*' x ':=' c1 'in' c2" := (bind c1 (fun x => c2))
  (at level 200, x name, c1 at level 100, c2 at level 200).

(** 0600 *)
Definition perm0600 : Z := 384.

Section Main.
Variable X : Externals.

Definition writeNewConfig : Proc unit :=
  match ed25519_GenerateKey X with
  | None => stop (Panicked "ed25519.GenerateKey")
  | Some (publicKey, privateKey) =>
    let conf := mkConfig publicKey privateKey "0.0.0.0:28000"
                  (DefaultLogsDir X "alpenhorn-mixer" publicKey)
                  (mkLaplace 100 3.0) (mkLaplace 100 3.0) in
    match template_Execute X conf with
    | None => stop (Fatal "template error")
    | Some data =>
      let path := "mixer-init.conf"%string in
      let* _ := emit (EvWriteFile path data perm0600) in
      if WriteFile_ok X path then emit (EvPrint ("wrote " ++ path ++ "
")%string)
      else stop (Fatal "write file")
    end
  end.

Definition main (doinit : bool) (confPath : string) : Proc unit :=
  if doinit then writeNewConfig else
  if String.eqb confPath "" then
    let* _ := emit (EvPrint "specify config file with -conf
") in
    stop (Exited 1)
  else
    let* _ := emit (EvReadFile confPath) in
    match ReadFile X confPath with
    | None => stop (Fatal "read file")
    | Some data =>
      match toml_Unmarshal X data with
      | None => stop (Fatal ("error parsing config " ++ confPath))
      | Some conf =>
        let* _ := emit (EvFetchConfig "AddFriend") in
        match CurrentConfig X "AddFriend" with
        | None => stop (Fatal "CurrentConfig")
        | Some None => stop (Panicked "interface conversion")
        | Some (Some coordinatorKey) =>
          let mixServer :=
            mkMixnetServer (PrivateKey conf) coordinatorKey
              [("AddFriend"%string, AddFriendMixer (PrivateKey conf) (AddFriendNoise conf));
               ("Dialing"%string, DialingMixer (PrivateKey conf) (DialingNoise conf))] in
          let* _ := emit (EvRegister mixServer (PrivateKey conf)) in
          let* _ := emit (EvListen (ListenAddr conf)) in
          if net_Listen_ok X (ListenAddr conf) then
            let* _ := emit EvServe in
            stop (Fatal ("Shutdown: " ++ Serve_error X))
          else stop (Fatal "net.Listen")
        end
      end
    end.

End Main.

End Mixer.

(** Concrete instances for persist.go: connection settings are a number,
    friend requests and PKG registrations are strings, and encoding/json
    is a table holding one encoded state. *)
Module PersistSamples.
Import Persist.

Definition b (s : string) : bytes := list_byte_of_string s.

#[global] Instance Req_eq_dec {A} `{EqDecision A} : EqDecision (Req A).
Proof. solve_decision. Defined.
#[global] Instance persistedFriend_eq_dec : EqDecision persistedFriend.
Proof. solve_decision. Defined.
#[global] Instance persistedState_eq_dec {CS IF OF SF PC}
  `{EqDecision CS, EqDecision IF, EqDecision OF, EqDecision SF, EqDecision PC} :
  EqDecision (persistedState CS IF OF SF PC).
Proof. solve_decision. Defined.

Definition sampleClient : Client Z string string string string :=
  mkClient 42%Z "alice" (b "alice-pub") (b "alice-priv") 7%Z
    [Some (mkReq "from carol" (Some 42%Z))] [] [Some (mkReq "to dave" (Some 42%Z))]
    {[ "bob"%string := Some (mkFriend "bob" (b "bob-key") (b "bob-extra") (Some 42%Z)) ]}
    {[ "pkg0"%string := Some "registered" ]}
    "client.json" "keywheel.bin".

(** The persistedState persistClient builds for sampleClient. *)
Definition sampleState : persistedState Z string string string string :=
  mkPersistedState "alice" (b "alice-pub") (b "alice-priv") 7%Z
    [Some (mkReq "from carol" (Some 42%Z))] [] [Some (mkReq "to dave" (Some 42%Z))]
    {[ "bob"%string := Some (mkPersistedFriend "bob" (b "bob-key") (b "bob-extra")) ]}
    {[ "pkg0"%string := Some "registered" ]}.

Definition persistX : Externals Z string string string string :=
  mkExternals
    (fun st => if decide (st = sampleState) then Some (b "state") else None)
    (fun data => if decide (data = b "state") then Some (jsonView sampleState) else None)
    0%Z
    (fun _ => true).

End PersistSamples.

(** * Properties of the PKG extraction *)
Module PKGProps.
Import PKG.

Lemma db_get_set_eq (d : list (dbKey * bytes)) (k : dbKey) (v : bytes) :
  db_get (db_set d k v) k = Some v.
Proof. unfold db_set; simpl. by rewrite decide_True. Qed.

(** C1: if extract returns a reply, the lastExtraction record of the
    identity holds {args.Round, t}, where t was read from the clock during
    the call (so t is at or before the time the reply is returned), and the
    commit of that record is the step just before the reply is signed; if
    extract returns an error, no reply was signed, and the store and the
    event log are as before the call. *)
Theorem extract_atomicity (X : Externals) (env : ExtractEnv) (args : extractArgs)
    (s : PkgState) :
  match extract X env args s with
  | (Ok reply, s') =>
      exists id t,
        UsernameToIdentity X (args_Username args) = Some id /\
        (clock s <= t <= clock s')%Z /\
        db_get (db (srv s')) (dbUserKey id lastExtractionSuffix)
          = Some (lastExtraction_Marshal X (args_Round args) t) /\
        events s' = events s ++
          [EvDbCommit (dbUserKey id lastExtractionSuffix)
                      (lastExtraction_Marshal X (args_Round args) t);
           EvReplySigned reply]
  | (Err _, s') => events s' = events s /\ db (srv s') = db (srv s)
  | (Panic _, _) => True
  end.
Proof.
  unfold extract, getUser, bind, get_state, throw, go_panic, ret, now, tick, emit,
    db_update, zeroNonceSeal.
  repeat (case_match; unfold ret in *; simplify_eq/=; try done).
  eexists _, _; split; [done|]; split; [|split].
  2: apply db_get_set_eq.
  - lia.
  - by rewrite <- app_assoc.
Qed.

Ltac run_extract :=
  unfold extract, extractHandler, getUser, bind, get_state, throw, go_panic, ret, now,
    tick, emit, db_update, zeroNonceSeal in *;
  repeat (case_match; unfold ret in *; simplify_eq/=; try congruence).

(** C2: the checks of extract run in the order round lookup, long-term key
    length, username, user lookup (absent: NotRegistered; store I/O error
    or undecodable record: DatabaseError), signature, audit write; the
    first failing check decides the error, whatever the later fields are. *)
Theorem extract_check_order (X : Externals) (env : ExtractEnv) (args : extractArgs)
    (s : PkgState) :
  (rounds (srv s) !! args_Round args = None ->
     fst (extract X env args s) = Err ErrRoundNotFound) /\
  (is_Some (rounds (srv s) !! args_Round args) ->
     length (args_UserLongTermKey args) <> ed25519_PublicKeySize ->
     fst (extract X env args s) = Err ErrInvalidUserLongTermKey) /\
  (is_Some (rounds (srv s) !! args_Round args) ->
     length (args_UserLongTermKey args) = ed25519_PublicKeySize ->
     UsernameToIdentity X (args_Username args) = None ->
     fst (extract X env args s) = Err ErrInvalidUsername) /\
  (forall id, is_Some (rounds (srv s) !! args_Round args) ->
     length (args_UserLongTermKey args) = ed25519_PublicKeySize ->
     UsernameToIdentity X (args_Username args) = Some id ->
     env_get_io_error env = true ->
     fst (extract X env args s) = Err ErrDatabaseError) /\
  (forall id, is_Some (rounds (srv s) !! args_Round args) ->
     length (args_UserLongTermKey args) = ed25519_PublicKeySize ->
     UsernameToIdentity X (args_Username args) = Some id ->
     env_get_io_error env = false ->
     db_get (db (srv s)) (dbUserKey id registrationSuffix) = None ->
     fst (extract X env args s) = Err ErrNotRegistered) /\
  (forall id data, is_Some (rounds (srv s) !! args_Round args) ->
     length (args_UserLongTermKey args) = ed25519_PublicKeySize ->
     UsernameToIdentity X (args_Username args) = Some id ->
     env_get_io_error env = false ->
     db_get (db (srv s)) (dbUserKey id registrationSuffix) = Some data ->
     userState_Unmarshal X data = None ->
     fst (extract X env args s) = Err ErrDatabaseError) /\
  (forall id data user, is_Some (rounds (srv s) !! args_Round args) ->
     length (args_UserLongTermKey args) = ed25519_PublicKeySize ->
     UsernameToIdentity X (args_Username args) = Some id ->
     env_get_io_error env = false ->
     db_get (db (srv s)) (dbUserKey id registrationSuffix) = Some data ->
     userState_Unmarshal X data = Some user ->
     extractArgs_Verify X args (LoginKey user) = Some false ->
     fst (extract X env args s) = Err ErrInvalidSignature) /\
  (forall id data user, is_Some (rounds (srv s) !! args_Round args) ->
     length (args_UserLongTermKey args) = ed25519_PublicKeySize ->
     UsernameToIdentity X (args_Username args) = Some id ->
     env_get_io_error env = false ->
     db_get (db (srv s)) (dbUserKey id registrationSuffix) = Some data ->
     userState_Unmarshal X data = Some user ->
     extractArgs_Verify X args (LoginKey user) = Some true ->
     env_commit_io_error env = true ->
     fst (extract X env args s) = Err ErrDatabaseError).
Proof.
  split_and!; intros;
    repeat match goal with H : is_Some _ |- _ => destruct H as [? ?] end;
    run_extract;
    repeat match goal with
           | H : negb _ = true |- _ => apply negb_true_iff in H
           | H : negb _ = false |- _ => apply negb_false_iff in H
           | H : (_ =? _)%nat = true |- _ => apply Nat.eqb_eq in H
           | H : (_ =? _)%nat = false |- _ => apply Nat.eqb_neq in H
           end; congruence.
Qed.

(** Running extract up to the signature check on a request with a nil
    ReturnKey. *)
Lemma extract_reaches_msg_panic (X : Externals) (env : ExtractEnv)
    (args : extractArgs) (s : PkgState) (id data : bytes) (user : userState) :
  is_Some (rounds (srv s) !! args_Round args) ->
  length (args_UserLongTermKey args) = ed25519_PublicKeySize ->
  UsernameToIdentity X (args_Username args) = Some id ->
  env_get_io_error env = false ->
  db_get (db (srv s)) (dbUserKey id registrationSuffix) = Some data ->
  userState_Unmarshal X data = Some user ->
  args_ReturnKey args = None ->
  extract X env args s = (Panic "nil pointer dereference", s).
Proof.
  intros [st Hst] Hlen Hid Hio Hdata Huser Hrk.
  unfold extract, bind, get_state. rewrite Hst.
  apply Nat.eqb_eq in Hlen. rewrite Hlen. simpl.
  unfold getUser, bind, get_state. rewrite Hid, Hio, Hdata, Huser. simpl.
  unfold extractArgs_Verify, extractArgs_msg, ValidUsernameToIdentity.
  rewrite Hid, Hrk. reflexivity.
Qed.

(** C8: extract never checks that ReturnKey is present; a request with a
    nil ReturnKey that passes the round, key length, username and
    registration checks reaches the dereference of ReturnKey in
    extractArgs.msg during signature verification and panics, in extract
    and in extractHandler alike. *)
Theorem extract_nil_ReturnKey_panics (X : Externals) (env : ExtractEnv)
    (args : extractArgs) (s : PkgState) (id data : bytes) (user : userState) :
  is_Some (rounds (srv s) !! args_Round args) ->
  length (args_UserLongTermKey args) = ed25519_PublicKeySize ->
  UsernameToIdentity X (args_Username args) = Some id ->
  env_get_io_error env = false ->
  db_get (db (srv s)) (dbUserKey id registrationSuffix) = Some data ->
  userState_Unmarshal X data = Some user ->
  args_ReturnKey args = None ->
  fst (extract X env args s) = Panic "nil pointer dereference" /\
  fst (extractHandler X env (Some args) s) = Panic "nil pointer dereference".
Proof.
  intros Hst Hlen Hid Hio Hdata Huser Hrk. split.
  - by rewrite (extract_reaches_msg_panic X env args s id data user).
  - unfold extractHandler.
    by rewrite (extract_reaches_msg_panic X env _ s id data user).
Qed.

Import Samples.

Ltac discharge :=
  first [ reflexivity | eexists; reflexivity | vm_compute; discriminate
        | vm_compute; intros ?; discriminate ].

Lemma extract_check_order_witness :
  fst (extract pkgX envOk (withRound aliceArgs 99) pkgState0) = Err ErrRoundNotFound /\
  fst (extract pkgX envOk (withLongTermKey aliceArgs (repeat Byte.x03 3)) pkgState0)
    = Err ErrInvalidUserLongTermKey /\
  fst (extract pkgX envOk (withUsername aliceArgs "") pkgState0) = Err ErrInvalidUsername /\
  fst (extract pkgX envGetFault aliceArgs pkgState0) = Err ErrDatabaseError /\
  fst (extract pkgX envOk (withUsername aliceArgs "ghost") pkgState0) = Err ErrNotRegistered /\
  fst (extract pkgX envOk (withUsername aliceArgs "bob") pkgState0) = Err ErrDatabaseError /\
  fst (extract pkgX envOk (withSignature aliceArgs []) pkgState0) = Err ErrInvalidSignature /\
  fst (extract pkgX envCommitFault aliceArgs pkgState0) = Err ErrDatabaseError.
Proof.
  split; [apply (extract_check_order pkgX envOk (withRound aliceArgs 99) pkgState0);
          discharge|].
  split; [apply (extract_check_order pkgX envOk
                   (withLongTermKey aliceArgs (repeat Byte.x03 3)) pkgState0);
          discharge|].
  split; [apply (extract_check_order pkgX envOk (withUsername aliceArgs "") pkgState0);
          discharge|].
  split; [apply (extract_check_order pkgX envGetFault aliceArgs pkgState0) with aliceId;
          discharge|].
  split; [apply (extract_check_order pkgX envOk (withUsername aliceArgs "ghost") pkgState0)
            with (b "ghost" ++ repeat Byte.x00 59); discharge|].
  split; [apply (extract_check_order pkgX envOk (withUsername aliceArgs "bob") pkgState0)
            with bobId []; discharge|].
  split; [apply (extract_check_order pkgX envOk (withSignature aliceArgs []) pkgState0)
            with aliceId aliceLogin (mkUserState aliceLogin); discharge|].
  apply (extract_check_order pkgX envCommitFault aliceArgs pkgState0)
    with aliceId aliceLogin (mkUserState aliceLogin); discharge.
Defined.

Lemma extract_nil_ReturnKey_panics_witness :
  fst (extract pkgX envOk (withReturnKey aliceArgs None) pkgState0)
    = Panic "nil pointer dereference" /\
  fst (extractHandler pkgX envOk (Some (withReturnKey aliceArgs None)) pkgState0)
    = Panic "nil pointer dereference".
Proof.
  apply (extract_nil_ReturnKey_panics pkgX envOk (withReturnKey aliceArgs None) pkgState0
           aliceId aliceLogin (mkUserState aliceLogin)); discharge.
Defined.

End PKGProps.

(** * Properties of the dialing client *)
Module DialingProps.
Import Dialing.

Section Runs.
Variable X : Externals.

Lemma testTokens_run (f : bloomFilter) (w : gmap string wheelEntry) (round : Z)
    (from : string) (tokens : list bytes) : forall (intent : Z) (s : DState),
  testTokens X f w round from intent tokens s
    = (Done tt, mkDState (cl s) (trace s ++ receivedCallsOf X f w round from intent tokens)).
Proof.
  induction tokens as [|token rest IH]; intros intent [c tr]; simpl.
  - by rewrite app_nil_r.
  - unfold bind, emit, ret. destruct (bloom_Test X f token); simpl;
      rewrite IH; simpl; [by rewrite <- app_assoc | done].
Qed.

Lemma testUsers_run (f : bloomFilter) (w : gmap string wheelEntry) (round : Z)
    (users : list UserDialTokens) : forall (s : DState),
  testUsers X f w round users s
    = (Done tt, mkDState (cl s) (trace s ++ receivedCalls X f w round users)).
Proof.
  induction users as [|user rest IH]; intros [c tr]; simpl.
  - by rewrite app_nil_r.
  - unfold bind. rewrite testTokens_run, IH. simpl. by rewrite app_assoc.
Qed.

(** A mailbox event on a configured round whose mailbox download succeeds. *)
Lemma scanBloomFilter_run (io : IO) (v : MailboxURL) (s : DState)
    (st : dialingRoundState) (mailbox : bytes) :
  dialingRounds (cl s) !! mb_Round v = Some st ->
  io_fetchMailbox io (CDNServer (drs_Config st)) (URL v)
    (usernameToMailbox X (Username (cl s)) (NumMailboxes v)) = Some mailbox ->
  scanBloomFilter X io v s =
    (if io_WriteFileAtomic io (KeywheelPersistPath (cl s))
     then Done tt else Crash "write keywheel",
     mkDState (set_wheel (cl s) (EraseKeys X (wheel (cl s)) (mb_Round v)))
       (trace s
        ++ match bloom_UnmarshalBinary X mailbox with
           | Some _ => [] | None => [EvHandlerError "decoding bloom filter"] end
        ++ receivedCalls X
             (match bloom_UnmarshalBinary X mailbox with Some f => f | None => zeroFilter end)
             (wheel (cl s)) (mb_Round v)
             (IncomingDialTokens X (wheel (cl s)) (Username (cl s)) (mb_Round v) (IntentMax X))
        ++ [EvWriteKeywheel (KeywheelPersistPath (cl s))
              (EraseKeys X (wheel (cl s)) (mb_Round v))
              (io_WriteFileAtomic io (KeywheelPersistPath (cl s)))])).
Proof.
  intros Hr Hf. destruct s as [c tr]; simpl in *.
  unfold scanBloomFilter, bind, client. simpl. rewrite Hr, Hf.
  unfold decodeFilter, bind, emit, ret.
  destruct (bloom_UnmarshalBinary X mailbox) as [f|]; simpl;
    rewrite testUsers_run; simpl;
    unfold persistKeywheel, bind, client, emit, put_client, ret; simpl;
    destruct (io_WriteFileAtomic io (KeywheelPersistPath c)); simpl;
    by rewrite <- ?app_assoc.
Qed.

(** After EraseKeys(R) no friend's secret is at round R or earlier. *)
Lemma IncomingDialTokens_EraseKeys (w : gmap string wheelEntry) (round : Z)
    (self : string) (maxIntent : Z) :
  IncomingDialTokens X (EraseKeys X w round) self round maxIntent = [].
Proof.
  unfold IncomingDialTokens, EraseKeys. rewrite map_to_list_fmap.
  induction (map_to_list w) as [|[u e] l IH]; simpl; [done|].
  destruct (Z.leb (we_Round e) round) eqn:He; simpl.
  - assert (Hn : Z.leb (round + 1) round = false) by (apply Z.leb_gt; lia).
    by rewrite Hn.
  - by rewrite He.
Qed.

Lemma persistWrites_receivedCallsOf (f : bloomFilter) (w : gmap string wheelEntry)
    (round : Z) (from : string) (tokens : list bytes) : forall intent,
  persistWrites (receivedCallsOf X f w round from intent tokens) = [].
Proof.
  unfold persistWrites.
  induction tokens as [|token rest IH]; intros intent; simpl; [done|].
  rewrite filter_app, IH. by destruct (bloom_Test X f token).
Qed.

Lemma persistWrites_receivedCalls (f : bloomFilter) (w : gmap string wheelEntry)
    (round : Z) (users : list UserDialTokens) :
  persistWrites (receivedCalls X f w round users) = [].
Proof.
  induction users as [|user rest IH]; simpl; [done|].
  unfold persistWrites in *. by rewrite filter_app, IH, persistWrites_receivedCallsOf.
Qed.

Lemma persistWrites_app (l1 l2 : list Event) :
  persistWrites (l1 ++ l2) = persistWrites l1 ++ persistWrites l2.
Proof. unfold persistWrites. apply filter_app. Qed.




End Runs.

(** C5: a newround for a round that already has state leaves the client
    (round states, cached config and hash) unchanged and fetches nothing;
    it reports an application error when the announced hash differs from
    the recorded ConfigParent.Hash(), and does nothing at all otherwise. *)
Theorem newDialingRound_duplicate (X : Externals) (io : IO) (v : NewRound) (s : DState)
    (st : dialingRoundState) :
  dialingRounds (cl s) !! nr_Round v = Some st ->
  (SignedConfig_Hash X (drs_ConfigParent st) <> nr_ConfigHash v ->
     newDialingRound X io v s
       = (Done tt, mkDState (cl s)
                     (trace s ++ [EvHandlerError "coordinator announced different configs"]))) /\
  (SignedConfig_Hash X (drs_ConfigParent st) = nr_ConfigHash v ->
     newDialingRound X io v s = (Done tt, s)).
Proof.
  intros Hr. unfold newDialingRound, bind, client. rewrite Hr.
  destruct (String.eqb_spec (SignedConfig_Hash X (drs_ConfigParent st)) (nr_ConfigHash v));
    split; intros; simpl; try done; by destruct s.
Qed.



(** C7: on a mailbox event for a configured round whose mailbox download
    succeeds, scanBloomFilter replaces the wheel by EraseKeys(R) of it,
    after which IncomingDialTokens for round R returns nothing; its last
    step, and its only file write, persists that erased wheel; if that write
    fails the handler panics (Crash), otherwise it returns. *)
Theorem scanBloomFilter_forward_secrecy (X : Externals) (io : IO) (v : MailboxURL)
    (s : DState) (st : dialingRoundState) (mailbox : bytes) :
  dialingRounds (cl s) !! mb_Round v = Some st ->
  io_fetchMailbox io (CDNServer (drs_Config st)) (URL v)
    (usernameToMailbox X (Username (cl s)) (NumMailboxes v)) = Some mailbox ->
  exists evs,
    scanBloomFilter X io v s =
      (if io_WriteFileAtomic io (KeywheelPersistPath (cl s))
       then Done tt else Crash "write keywheel",
       mkDState (set_wheel (cl s) (EraseKeys X (wheel (cl s)) (mb_Round v)))
         (trace s ++ evs
            ++ [EvWriteKeywheel (KeywheelPersistPath (cl s))
                  (EraseKeys X (wheel (cl s)) (mb_Round v))
                  (io_WriteFileAtomic io (KeywheelPersistPath (cl s)))])) /\
    persistWrites evs = [] /\
    (forall (self : string) (maxIntent : Z),
       IncomingDialTokens X (EraseKeys X (wheel (cl s)) (mb_Round v))
         self (mb_Round v) maxIntent = []).
Proof.
  intros Hr Hf.
  rewrite (scanBloomFilter_run X io v s st mailbox Hr Hf).
  eexists. split; [by rewrite <- app_assoc|]. split.
  - unfold persistWrites in *. rewrite filter_app.
    fold (persistWrites (receivedCalls X
             (match bloom_UnmarshalBinary X mailbox with Some f => f | None => zeroFilter end)
             (wheel (cl s)) (mb_Round v)
             (IncomingDialTokens X (wheel (cl s)) (Username (cl s)) (mb_Round v) (IntentMax X)))).
    rewrite persistWrites_receivedCalls.
    by destruct (bloom_UnmarshalBinary X mailbox).
  - intros self maxIntent. apply IncomingDialTokens_EraseKeys.
Qed.

(** C10: when the downloaded mailbox does not decode as a bloom filter,
    scanBloomFilter reports the error and then does exactly what it does
    when the mailbox decodes to the zero-value filter: it tests the round's
    dial tokens against that filter, erases the round's keys and persists
    the key wheel. *)
Theorem scanBloomFilter_decode_failure_continues (X : Externals) (io : IO)
    (v : MailboxURL) (s : DState) (st : dialingRoundState) (mailbox : bytes) :
  dialingRounds (cl s) !! mb_Round v = Some st ->
  io_fetchMailbox io (CDNServer (drs_Config st)) (URL v)
    (usernameToMailbox X (Username (cl s)) (NumMailboxes v)) = Some mailbox ->
  bloom_UnmarshalBinary X mailbox = None ->
  exists o c' evs,
    scanBloomFilter (decodingTo X zeroFilter) io v s = (o, mkDState c' (trace s ++ evs)) /\
    scanBloomFilter X io v s
      = (o, mkDState c' (trace s ++ EvHandlerError "decoding bloom filter" :: evs)) /\
    wheel c' = EraseKeys X (wheel (cl s)) (mb_Round v) /\
    evs = receivedCalls X zeroFilter (wheel (cl s)) (mb_Round v)
            (IncomingDialTokens X (wheel (cl s)) (Username (cl s)) (mb_Round v) (IntentMax X))
          ++ [EvWriteKeywheel (KeywheelPersistPath (cl s)) (wheel c')
                (io_WriteFileAtomic io (KeywheelPersistPath (cl s)))].
Proof.
  intros Hr Hf Hdec.
  rewrite (scanBloomFilter_run X io v s st mailbox Hr Hf), Hdec.
  rewrite (scanBloomFilter_run (decodingTo X zeroFilter) io v s st mailbox Hr Hf).
  do 3 eexists. split; [reflexivity|]. split; [reflexivity|]. split; reflexivity.
Qed.

(** C4 (code bug): persistLocked, documented to persist the key wheel and
    the client state always at the same time, writes the client state file
    when its path is set and then the key-wheel file when its path is set;
    but scanBloomFilter, on a configured round whose mailbox was fetched,
    calls persistKeywheel alone: it writes the key-wheel file and never the
    client state file. *)
Theorem persist_files_written (X : Externals) (io : IO) (v : MailboxURL) (s : DState) :
  (exists e, persistLocked io s =
     (Done e, mkDState (cl s) (trace s
        ++ (if decide (ClientPersistPath (cl s) <> ""%string)
            then [EvWriteClient (ClientPersistPath (cl s))
                    (io_WriteFileAtomic io (ClientPersistPath (cl s)))]
            else [])
        ++ (if decide (KeywheelPersistPath (cl s) <> ""%string)
            then [EvWriteKeywheel (KeywheelPersistPath (cl s)) (wheel (cl s))
                    (io_WriteFileAtomic io (KeywheelPersistPath (cl s)))]
            else [])))) /\
  (forall (st : dialingRoundState) (mailbox : bytes),
     dialingRounds (cl s) !! mb_Round v = Some st ->
     io_fetchMailbox io (CDNServer (drs_Config st)) (URL v)
       (usernameToMailbox X (Username (cl s)) (NumMailboxes v)) = Some mailbox ->
     exists evs,
       trace (snd (scanBloomFilter X io v s)) = trace s ++ evs /\
       persistWrites evs =
         [EvWriteKeywheel (KeywheelPersistPath (cl s))
            (EraseKeys X (wheel (cl s)) (mb_Round v))
            (io_WriteFileAtomic io (KeywheelPersistPath (cl s)))]).
Proof.
  split.
  - destruct s as [c tr]. simpl.
    unfold persistLocked, persistClient, persistKeywheel, bind, client, emit, ret; simpl.
    destruct (decide (ClientPersistPath c <> ""%string));
      destruct (decide (KeywheelPersistPath c <> ""%string)); simpl;
      eexists; by rewrite <- ?app_assoc, ?app_nil_r.
  - intros st mailbox Hr Hf.
    rewrite (scanBloomFilter_run X io v s st mailbox Hr Hf). simpl.
    eexists. split; [reflexivity|].
    rewrite !persistWrites_app, persistWrites_receivedCalls.
    by destruct (bloom_UnmarshalBinary X mailbox).
Qed.

Import DialingSamples.

(** C4 failing input: client0 has both persistence paths set, yet the
    mailbox scan of round 5 writes the key-wheel file and not the client
    state file, against the pairing persistLocked is meant to keep. *)
Lemma scanBloomFilter_keywheel_without_client :
  ClientPersistPath client0 = "client.json"%string /\
  KeywheelPersistPath client0 = "keywheel.bin"%string /\
  persistWrites (trace (snd (scanBloomFilter dialX (ioOk [Byte.x01]) mailbox5 state0)))
    = [EvWriteKeywheel "keywheel.bin" (EraseKeys dialX (wheel client0) 5) true].
Proof. split; [reflexivity|]. split; [reflexivity|]. vm_compute. reflexivity. Qed.

Lemma persist_files_written_witness :
  exists evs,
    trace (snd (scanBloomFilter dialX (ioOk [Byte.x01]) mailbox5 state0)) = evs /\
    persistWrites evs = [EvWriteKeywheel "keywheel.bin" (EraseKeys dialX (wheel client0) 5) true].
Proof.
  destruct (proj2 (persist_files_written dialX (ioOk [Byte.x01]) mailbox5 state0)
              (mkDialingRoundState 5 (Inner cfgA) cfgA) [Byte.x01])
    as [evs [H1 H2]]; [vm_compute; reflexivity|vm_compute; reflexivity|].
  exists evs. split; [exact H1|exact H2].
Defined.


Lemma newDialingRound_duplicate_witness :
  newDialingRound dialX (ioOk []) (mkNewRound 5 "H2") state0
    = (Done tt, mkDState (cl state0)
                  (trace state0 ++ [EvHandlerError "coordinator announced different configs"])) /\
  newDialingRound dialX (ioOk []) (mkNewRound 5 "H1") state0 = (Done tt, state0).
Proof.
  split.
  - apply (proj1 (newDialingRound_duplicate dialX (ioOk []) (mkNewRound 5 "H2") state0
                    (mkDialingRoundState 5 (Inner cfgA) cfgA) ltac:(vm_compute; reflexivity))).
    vm_compute. discriminate.
  - apply (proj2 (newDialingRound_duplicate dialX (ioOk []) (mkNewRound 5 "H1") state0
                    (mkDialingRoundState 5 (Inner cfgA) cfgA) ltac:(vm_compute; reflexivity))).
    vm_compute. reflexivity.
Defined.



Lemma scanBloomFilter_forward_secrecy_witness :
  exists evs,
    scanBloomFilter dialX (ioOk [Byte.x01]) mailbox5 state0 =
      (Done tt, mkDState (set_wheel client0 (EraseKeys dialX (wheel client0) 5))
                  (evs ++ [EvWriteKeywheel "keywheel.bin" (EraseKeys dialX (wheel client0) 5) true])) /\
    persistWrites evs = [] /\
    IncomingDialTokens dialX (EraseKeys dialX (wheel client0) 5) "alice" 5 3 = [].
Proof.
  destruct (scanBloomFilter_forward_secrecy dialX (ioOk [Byte.x01]) mailbox5 state0
              (mkDialingRoundState 5 (Inner cfgA) cfgA) [Byte.x01])
    as [evs [H1 [H2 H3]]]; [vm_compute; reflexivity|vm_compute; reflexivity|].
  exists evs. split; [exact H1|]. split; [exact H2|]. apply H3.
Defined.

Lemma scanBloomFilter_decode_failure_continues_witness :
  exists o c' evs,
    scanBloomFilter dialX (ioOk []) mailbox5 state0
      = (o, mkDState c' (EvHandlerError "decoding bloom filter" :: evs)) /\
    wheel c' = EraseKeys dialX (wheel client0) 5.
Proof.
  destruct (scanBloomFilter_decode_failure_continues dialX (ioOk []) mailbox5 state0
              (mkDialingRoundState 5 (Inner cfgA) cfgA) [])
    as (o & c' & evs & H1 & H2 & H3 & H4); [vm_compute; reflexivity|vm_compute; reflexivity
                                            |vm_compute; reflexivity|].
  exists o, c', evs. split; [exact H2|exact H3].
Defined.

End DialingProps.

(** * Further properties of extract.go *)
Module PKGExtraProps.
Import PKG.
Local Open Scope Z_scope.

Lemma db_get_filter_ne (d : list (dbKey * bytes)) (k k' : dbKey) :
  k' <> k -> db_get (filter (fun kv => kv.1 <> k) d) k' = db_get d k'.
Proof.
  intros Hne.
  induction d as [|[k0 v0] d IH]; simpl; [done|].
  destruct (decide (k0 <> k)) as [Hk|Hk]; simpl.
  - rewrite filter_cons_True by done. simpl.
    destruct (decide (k' = k0)); [done|apply IH].
  - rewrite filter_cons_False by done.
    assert (k0 = k) as -> by (destruct (decide (k0 = k)); tauto).
    rewrite decide_False by done. apply IH.
Qed.

Lemma db_get_set_ne (d : list (dbKey * bytes)) (k k' : dbKey) (v : bytes) :
  k' <> k -> db_get (db_set d k v) k' = db_get d k'.
Proof.
  intros Hne. unfold db_set; simpl. rewrite decide_False by done.
  by apply db_get_filter_ne.
Qed.

Lemma byte_of_Z_to_N (z : Z) : Byte.to_N (byte_of_Z z) = Z.to_N (z mod 256).
Proof.
  unfold byte_of_Z.
  destruct (Byte.of_N (Z.to_N (z mod 256))) as [b|] eqn:E.
  - by apply Byte.to_of_N.
  - exfalso. assert (Z.to_N (z mod 256) < 256)%N as Hlt.
    { pose proof (Z.mod_pos_bound z 256). lia. }
    destruct (Byte.of_N_None_iff (Z.to_N (z mod 256))) as [H _]. specialize (H E). lia.
Qed.

Lemma byte_of_Z_inj (x y : Z) :
  byte_of_Z x = byte_of_Z y -> x mod 256 = y mod 256.
Proof.
  intros H. apply (f_equal Byte.to_N) in H. rewrite !byte_of_Z_to_N in H.
  pose proof (Z.mod_pos_bound x 256). pose proof (Z.mod_pos_bound y 256). lia.
Qed.

(** be32 is injective on uint32 values. *)
Lemma be32_inj (x y : Z) :
  0 <= x < 2 ^ 32 -> 0 <= y < 2 ^ 32 -> be32 x = be32 y -> x = y.
Proof.
  intros Hx Hy H. unfold be32 in H. injection H as H1 H2 H3 H4.
  apply byte_of_Z_inj in H1, H2, H3, H4.
  rewrite !Z.shiftr_div_pow2 in H1, H2, H3 by lia.
  change (2 ^ 24) with 16777216 in *. change (2 ^ 16) with 65536 in *.
  change (2 ^ 8) with 256 in *. change (2 ^ 32) with 4294967296 in *.
  Z.to_euclidean_division_equations. lia.
Qed.

Lemma length_be32 (x : Z) : length (be32 x) = 4%nat.
Proof. reflexivity. Qed.

Ltac run_extract :=
  unfold extract, extractHandler, getUser, bind, get_state, throw, go_panic, ret, now,
    tick, emit, db_update, zeroNonceSeal in *;
  repeat (case_match; unfold ret in *; simplify_eq/=; try congruence).

(** extractArgs.msg and extractReply.msg start with the tags "ExtractArgs"
    and "ExtractReply", which differ at their eighth byte: no signing
    preimage of a request equals the signing preimage of a reply. *)
Theorem extractArgs_extractReply_msg_distinct (X : Externals) (a : extractArgs)
    (r : extractReply) (ma mr : bytes) :
  extractArgs_msg X a = Some ma -> extractReply_msg X r = Some mr -> ma <> mr.
Proof.
  unfold extractArgs_msg, extractReply_msg, ValidUsernameToIdentity.
  intros Ha Hr. repeat case_match; simplify_eq. intros Heq. inversion Heq.
Qed.

(** extractReply.msg binds the round, the identity and the ciphertext:
    when identities are 64 bytes, two replies for uint32 rounds with the
    same signing preimage agree on round, identity and encrypted key, so
    a reply signature cannot be replayed for another round. *)
Theorem extractReply_msg_binds (X : Externals) (r1 r2 : extractReply) (m : bytes) :
  (forall u id, UsernameToIdentity X u = Some id -> length id = 64%nat) ->
  0 <= reply_Round r1 < 2 ^ 32 -> 0 <= reply_Round r2 < 2 ^ 32 ->
  extractReply_msg X r1 = Some m -> extractReply_msg X r2 = Some m ->
  reply_Round r1 = reply_Round r2 /\
  UsernameToIdentity X (reply_Username r1) = UsernameToIdentity X (reply_Username r2) /\
  reply_EncryptedPrivateKey r1 = reply_EncryptedPrivateKey r2.
Proof.
  intros Hid64 Hr1 Hr2.
  unfold extractReply_msg, ValidUsernameToIdentity.
  destruct (UsernameToIdentity X (reply_Username r1)) as [id1|] eqn:E1; [|done].
  destruct (UsernameToIdentity X (reply_Username r2)) as [id2|] eqn:E2; [|done].
  intros H1 H2. rewrite <- H2 in H1. apply (inj Some) in H1 as H.
  apply app_inv_head in H.
  apply app_inj_1 in H as [Hb H]; [|by rewrite !length_be32].
  apply app_inj_1 in H as [Hid H]; [|by rewrite (Hid64 _ _ E1), (Hid64 _ _ E2)].
  split; [by apply be32_inj|]. subst. done.
Qed.

(** extractArgs.msg binds every signed field: with 64-byte identities,
    32-byte return keys and server keys of one length, two requests for
    uint32 rounds with the same signing preimage agree on the server key,
    the round, the identity, the return key and the long-term key; a
    login-key signature made for one PKG, round or return key does not
    verify for another. *)
Theorem extractArgs_msg_binds (X : Externals) (a1 a2 : extractArgs) (m rk1 rk2 : bytes) :
  (forall u id, UsernameToIdentity X u = Some id -> length id = 64%nat) ->
  length (args_ServerSigningKey a1) = length (args_ServerSigningKey a2) ->
  0 <= args_Round a1 < 2 ^ 32 -> 0 <= args_Round a2 < 2 ^ 32 ->
  args_ReturnKey a1 = Some rk1 -> args_ReturnKey a2 = Some rk2 ->
  length rk1 = 32%nat -> length rk2 = 32%nat ->
  extractArgs_msg X a1 = Some m -> extractArgs_msg X a2 = Some m ->
  args_ServerSigningKey a1 = args_ServerSigningKey a2 /\
  args_Round a1 = args_Round a2 /\
  UsernameToIdentity X (args_Username a1) = UsernameToIdentity X (args_Username a2) /\
  rk1 = rk2 /\
  args_UserLongTermKey a1 = args_UserLongTermKey a2.
Proof.
  intros Hid64 Hssk Hr1 Hr2 Hrk1 Hrk2 Hl1 Hl2.
  unfold extractArgs_msg, ValidUsernameToIdentity. rewrite Hrk1, Hrk2.
  destruct (UsernameToIdentity X (args_Username a1)) as [id1|] eqn:E1; [|done].
  destruct (UsernameToIdentity X (args_Username a2)) as [id2|] eqn:E2; [|done].
  intros H1 H2. rewrite <- H2 in H1. apply (inj Some) in H1 as H.
  apply app_inv_head in H.
  apply app_inj_1 in H as [Hk H]; [|done].
  apply app_inj_1 in H as [Hb H]; [|by rewrite !length_be32].
  apply app_inj_1 in H as [Hid H]; [|by rewrite (Hid64 _ _ E1), (Hid64 _ _ E2)].
  apply app_inj_1 in H as [Hrk H]; [|by rewrite Hl1, Hl2].
  split_and!; try done; try (by apply be32_inj); by subst.
Qed.

(** extractArgs.Sign followed by extractArgs.Verify with the matching
    public key succeeds, for an ed25519 key pair that verifies its own
    signatures; signing changes only the Signature field. *)
Theorem extractArgs_Sign_Verify (X : Externals) (a a' : extractArgs) (pub priv : bytes) :
  (forall m, ed25519_Verify X pub m (ed25519_Sign X priv m) = true) ->
  extractArgs_Sign X a priv = Some a' ->
  extractArgs_Verify X a' pub = Some true /\
  mkExtractArgs (args_Round a') (args_Username a') (args_ReturnKey a')
    (args_UserLongTermKey a') (args_ServerSigningKey a') (args_Signature a)
  = a.
Proof.
  intros Hkey. unfold extractArgs_Sign.
  destruct (extractArgs_msg X a) as [m|] eqn:Hm; [|done]. intros [= <-].
  split; [|by destruct a].
  unfold extractArgs_Verify, extractArgs_msg in *. simpl.
  repeat case_match; simplify_eq/=. by rewrite Hkey.
Qed.

(** A reply of extract is for the requested round and username, and
    verifies (extractReply.Verify) under the server's public key, for a
    server key pair that verifies its own signatures. *)
Theorem extract_reply_verifies (X : Externals) (env : ExtractEnv) (args : extractArgs)
    (s s' : PkgState) (reply : extractReply) :
  (forall m, ed25519_Verify X (publicKey (srv s)) m (ed25519_Sign X (privateKey (srv s)) m)
             = true) ->
  extract X env args s = (Ok reply, s') ->
  reply_Round reply = args_Round args /\
  reply_Username reply = args_Username args /\
  extractReply_Verify X reply (publicKey (srv s)) = Some true.
Proof.
  intros Hkey Hrun.
  unfold extract, extractReply_Sign, getUser, bind, get_state, throw, go_panic, ret, now,
    tick, emit, db_update, zeroNonceSeal in Hrun.
  repeat (case_match; unfold ret in *; simplify_eq/=; try congruence).
  split_and!; try done.
  unfold extractReply_Verify. simpl.
  match goal with H : extractReply_msg X _ = Some ?m |- _ =>
    replace (extractReply_msg X _) with (Some m) by (rewrite <- H; done) end.
  by rewrite Hkey.
Qed.

(** extract returns a reply only for a known round, a 32-byte long-term
    key, a registered identity whose stored record decodes, and a request
    signature that verifies against the stored login key. *)
Theorem extract_reply_requires_registration (X : Externals) (env : ExtractEnv)
    (args : extractArgs) (s s' : PkgState) (reply : extractReply) :
  extract X env args s = (Ok reply, s') ->
  exists st id data user,
    rounds (srv s) !! args_Round args = Some st /\
    length (args_UserLongTermKey args) = ed25519_PublicKeySize /\
    UsernameToIdentity X (args_Username args) = Some id /\
    db_get (db (srv s)) (dbUserKey id registrationSuffix) = Some data /\
    userState_Unmarshal X data = Some user /\
    extractArgs_Verify X args (LoginKey user) = Some true.
Proof.
  intros Hrun. run_extract.
  match goal with H : negb _ = false |- _ => apply negb_false_iff, Nat.eqb_eq in H end.
  eexists _, _, _, _. split_and!; eauto.
Qed.

(** Whatever its outcome, extract leaves the round state and the server
    keys as they are, and changes no record of the store other than the
    lastExtraction record of the requested identity: registrations and
    the records of other users are never touched. *)
Theorem extract_frame (X : Externals) (env : ExtractEnv) (args : extractArgs)
    (s : PkgState) :
  let s' := snd (extract X env args s) in
  rounds (srv s') = rounds (srv s) /\
  publicKey (srv s') = publicKey (srv s) /\
  privateKey (srv s') = privateKey (srv s) /\
  (forall k, (forall id, UsernameToIdentity X (args_Username args) = Some id ->
                         k <> dbUserKey id lastExtractionSuffix) ->
     db_get (db (srv s')) k = db_get (db (srv s)) k).
Proof.
  unfold extract, getUser, bind, get_state, throw, go_panic, ret, now,
    tick, emit, db_update, zeroNonceSeal.
  repeat (case_match; unfold ret, go_panic in *; simplify_eq/=); split_and!; try done;
    intros k Hk; specialize (Hk _ eq_refl);
    rewrite decide_False by done; by apply db_get_filter_ne.
Qed.

Import Samples.

Lemma sample_UsernameToIdentity_64 (u : string) (id : bytes) :
  sample_UsernameToIdentity u = Some id -> length id = 64%nat.
Proof.
  unfold sample_UsernameToIdentity, b. case_match eqn:Hc; [|done].
  intros [= <-]. apply andb_prop in Hc as [H1 H2].
  apply Nat.ltb_lt in H1. apply Nat.leb_le in H2.
  rewrite length_app, repeat_length.
  assert (length (list_byte_of_string u) = String.length u) as ->.
  { clear. induction u; simpl; auto. }
  lia.
Qed.

Lemma extractArgs_extractReply_msg_distinct_witness :
  match extractArgs_msg pkgX aliceArgs, extractReply_msg pkgX aliceReply with
  | Some ma, Some mr => ma <> mr
  | _, _ => False
  end.
Proof.
  destruct (extractArgs_msg pkgX aliceArgs) as [ma|] eqn:Ha;
    [|vm_compute in Ha; discriminate].
  destruct (extractReply_msg pkgX aliceReply) as [mr|] eqn:Hr;
    [|vm_compute in Hr; discriminate].
  exact (extractArgs_extractReply_msg_distinct pkgX aliceArgs aliceReply ma mr Ha Hr).
Defined.

Lemma extractReply_msg_binds_witness :
  match extractReply_msg pkgX aliceReply with
  | Some m =>
    reply_Round aliceReply = reply_Round aliceReply /\
    UsernameToIdentity pkgX (reply_Username aliceReply)
      = UsernameToIdentity pkgX (reply_Username aliceReply) /\
    reply_EncryptedPrivateKey aliceReply = reply_EncryptedPrivateKey aliceReply
  | None => False
  end.
Proof.
  destruct (extractReply_msg pkgX aliceReply) as [m|] eqn:Hm;
    [|vm_compute in Hm; discriminate].
  apply (extractReply_msg_binds pkgX aliceReply aliceReply m);
    [exact sample_UsernameToIdentity_64|simpl; lia|simpl; lia|exact Hm|exact Hm].
Defined.

Lemma extractArgs_msg_binds_witness :
  match extractArgs_msg pkgX aliceArgs with
  | Some m =>
    args_ServerSigningKey aliceArgs = args_ServerSigningKey aliceArgs /\
    args_Round aliceArgs = args_Round aliceArgs /\
    UsernameToIdentity pkgX (args_Username aliceArgs)
      = UsernameToIdentity pkgX (args_Username aliceArgs) /\
    repeat Byte.x02 32 = repeat Byte.x02 32 /\
    args_UserLongTermKey aliceArgs = args_UserLongTermKey aliceArgs
  | None => False
  end.
Proof.
  destruct (extractArgs_msg pkgX aliceArgs) as [m|] eqn:Hm;
    [|vm_compute in Hm; discriminate].
  apply (extractArgs_msg_binds pkgX aliceArgs aliceArgs m (repeat Byte.x02 32)
           (repeat Byte.x02 32));
    [exact sample_UsernameToIdentity_64|reflexivity|simpl; lia|simpl; lia
    |reflexivity|reflexivity|reflexivity|reflexivity|exact Hm|exact Hm].
Defined.

Lemma extractArgs_Sign_Verify_witness :
  match extractArgs_Sign pkgX aliceArgs aliceLogin with
  | Some a' => extractArgs_Verify pkgX a' aliceLogin = Some true
  | None => False
  end.
Proof.
  destruct (extractArgs_Sign pkgX aliceArgs aliceLogin) as [a'|] eqn:Hs;
    [|vm_compute in Hs; discriminate].
  apply (proj1 (extractArgs_Sign_Verify pkgX aliceArgs a' aliceLogin aliceLogin
                  ltac:(intros m; cbn; by apply bool_decide_eq_true_2) Hs)).
Defined.

Lemma extract_reply_verifies_witness :
  match extract pkgX envOk aliceArgs pkgState1 with
  | (Ok reply, _) =>
    reply_Round reply = 7 /\ reply_Username reply = "alice"%string /\
    extractReply_Verify pkgX reply (b "server-key") = Some true
  | _ => False
  end.
Proof.
  destruct (extract pkgX envOk aliceArgs pkgState1) as [[reply| |] s'] eqn:He;
    [|vm_compute in He; discriminate..].
  apply (extract_reply_verifies pkgX envOk aliceArgs pkgState1 s' reply); [|exact He].
  intros m. cbn. by apply bool_decide_eq_true_2.
Defined.

Lemma extract_reply_requires_registration_witness :
  match extract pkgX envOk aliceArgs pkgState0 with
  | (Ok reply, _) =>
    exists st id data user,
      rounds (srv pkgState0) !! 7 = Some st /\
      length (args_UserLongTermKey aliceArgs) = ed25519_PublicKeySize /\
      UsernameToIdentity pkgX "alice" = Some id /\
      db_get (db (srv pkgState0)) (dbUserKey id registrationSuffix) = Some data /\
      userState_Unmarshal pkgX data = Some user /\
      extractArgs_Verify pkgX aliceArgs (LoginKey user) = Some true
  | _ => False
  end.
Proof.
  destruct (extract pkgX envOk aliceArgs pkgState0) as [[reply| |] s'] eqn:He;
    [|vm_compute in He; discriminate..].
  exact (extract_reply_requires_registration pkgX envOk aliceArgs pkgState0 s' reply He).
Defined.

End PKGExtraProps.

(** * Further properties of the dialing handlers *)
Module DialingExtraProps.
Import Dialing.

(** persistLocked only writes files: it never changes the client and
    never panics. *)
Lemma persistLocked_frame (io : IO) (s : DState) :
  exists e evs, persistLocked io s = (Done e, mkDState (cl s) (trace s ++ evs)).
Proof.
  destruct s as [c tr]. simpl.
  unfold persistLocked, persistClient, persistKeywheel, bind, client, emit, ret; simpl.
  destruct (decide (ClientPersistPath c <> ""%string));
    destruct (decide (KeywheelPersistPath c <> ""%string)); simpl;
    first [ exists None, []; by rewrite app_nil_r
          | eexists _, _; rewrite <- ?app_assoc; reflexivity ].
Qed.

Ltac persist_frame :=
  repeat match goal with
  | H : persistLocked ?io ?s0 = (?o, ?s1) |- _ =>
      let e := fresh "e" in let evs := fresh "evs" in let He := fresh "He" in
      destruct (persistLocked_frame io s0) as (e & evs & He);
      rewrite He in H; clear He; simplify_eq/=
  end.

Section Loops.
Variable X : Externals.

Lemma verifyMixers_all_ok (msg : bytes) (sigs : list bytes) (mixers : list MixServer) :
  forall (k : nat),
  (forall j mixer, mixers !! j = Some mixer ->
     exists sig, sigs !! (k + j)%nat = Some sig /\ ed25519_Verify X (mixer_Key mixer) msg sig = true) ->
  verifyMixers X msg sigs k mixers = VerifyOk.
Proof.
  induction mixers as [|m rest IH]; intros k Hall; simpl; [done|].
  destruct (Hall 0%nat m) as (sig & Hs & Hv); [done|].
  rewrite Nat.add_0_r in Hs. rewrite Hs, Hv. apply IH.
  intros j mixer Hj. destruct (Hall (S j) mixer Hj) as (sig' & Hs' & Hv').
  exists sig'. split; [|done]. by replace (S k + j)%nat with (k + S j)%nat by lia.
Qed.

Lemma In_receivedCallsOf (f : bloomFilter) (w : gmap string wheelEntry) (round : Z)
    (from : string) (tokens : list bytes) : forall (intent : Z) (ev : Event),
  In ev (receivedCallsOf X f w round from intent tokens) <->
  exists j token, tokens !! j = Some token /\ bloom_Test X f token = true /\
    ev = EvHandlerReceivedCall (mkIncomingCall from (intent + Z.of_nat j)%Z
                                 (SessionKey X w from round)).
Proof.
  induction tokens as [|token rest IH]; intros intent ev; simpl.
  - split; [done|]. intros (j & t & Hj & _). by rewrite lookup_nil in Hj.
  - rewrite in_app_iff, IH. split.
    + intros [Hin|(j & t & Hj & Ht & ->)].
      * destruct (bloom_Test X f token) eqn:Ht; [|done].
        destruct Hin as [<-|[]]. exists 0%nat, token. by rewrite Z.add_0_r.
      * exists (S j), t. split_and!; [done|done|]. do 2 f_equal. lia.
    + intros ([|j] & t & Hj & Ht & ->); simpl in Hj; simplify_eq.
      * left. rewrite Ht, Z.add_0_r. by left.
      * right. exists j, t. split_and!; [done|done|]. do 2 f_equal. lia.
Qed.

Lemma In_receivedCalls (f : bloomFilter) (w : gmap string wheelEntry) (round : Z)
    (users : list UserDialTokens) (ev : Event) :
  In ev (receivedCalls X f w round users) <->
  exists user j token, In user users /\ Tokens user !! j = Some token /\
    bloom_Test X f token = true /\
    ev = EvHandlerReceivedCall (mkIncomingCall (FromUsername user) (Z.of_nat j)
                                 (SessionKey X w (FromUsername user) round)).
Proof.
  induction users as [|user rest IH]; simpl.
  - split; [done|]. by intros (? & ? & ? & [] & _).
  - rewrite in_app_iff, IH, In_receivedCallsOf. split.
    + intros [(j & t & Hj & Ht & ->)|(u & j & t & Hu & Hj & Ht & ->)].
      * exists user, j, t. split_and!; try done. by left.
      * exists u, j, t. split_and!; try done. by right.
    + intros (u & j & t & [<-|Hu] & Hj & Ht & ->).
      * left. by exists j, t.
      * right. by exists u, j, t.
Qed.

Lemma receivedCallsOf_imap (f : bloomFilter) (w : gmap string wheelEntry) (round : Z)
    (from : string) (tokens : list bytes) : forall (intent : Z),
  receivedCallsOf X f w round from intent tokens =
  concat (imap (fun j token =>
                  if bloom_Test X f token
                  then [EvHandlerReceivedCall
                          (mkIncomingCall from (intent + Z.of_nat j)%Z (SessionKey X w from round))]
                  else []) tokens).
Proof.
  induction tokens as [|t ts IH]; intros intent; [done|].
  simpl. rewrite IH, Z.add_0_r. f_equal. f_equal. apply imap_ext. intros j x _. simpl.
  by replace (intent + 1 + Z.of_nat j)%Z with (intent + Z.of_nat (S j))%Z by lia.
Qed.

Lemma receivedCalls_concat (f : bloomFilter) (w : gmap string wheelEntry) (round : Z)
    (users : list UserDialTokens) :
  receivedCalls X f w round users =
  concat (map (fun user =>
    concat (imap (fun j token =>
                    if bloom_Test X f token
                    then [EvHandlerReceivedCall
                            (mkIncomingCall (FromUsername user) (Z.of_nat j)
                               (SessionKey X w (FromUsername user) round))]
                    else []) (Tokens user))) users).
Proof.
  induction users as [|u us IH]; [done|]. simpl. rewrite IH, receivedCallsOf_imap.
  reflexivity.
Qed.

End Loops.

(** Whatever message dialingMux hands to a handler, the handler keeps the
    client's username and persistence paths, only appends to the observed
    calls, and never removes or replaces the state of a round already
    recorded. *)
Theorem dialingMux_preserves (X : Externals) (io : IO) (m : CoordinatorMsg) (s : DState) :
  let s' := snd (dialingMux X io m s) in
  Username (cl s') = Username (cl s) /\
  ClientPersistPath (cl s') = ClientPersistPath (cl s) /\
  KeywheelPersistPath (cl s') = KeywheelPersistPath (cl s) /\
  (exists evs, trace s' = trace s ++ evs) /\
  (forall r st, dialingRounds (cl s) !! r = Some st -> dialingRounds (cl s') !! r = Some st).
Proof.
  destruct s as [c tr]. destruct m as [v|v|v|r e]; simpl.
  - unfold newDialingRound, bind, client, emit, ret, put_client, crash.
    repeat (case_match; simplify_eq/=; persist_frame); simpl;
      split_and!; try done;
      try (eexists; by rewrite <- ?app_assoc);
      try (exists []; by rewrite app_nil_r);
      intros r st Hr; (rewrite lookup_insert_ne; [done|congruence]).
  - unfold sendDialingOnion, nextOutgoingCall, bind, client, emit, ret, put_client, crash.
    repeat (case_match; simplify_eq/=); simpl;
      split_and!; try done;
      try (eexists; by rewrite <- ?app_assoc);
      exists []; by rewrite app_nil_r.
  - destruct (dialingRounds c !! mb_Round v) as [st|] eqn:Hr.
    + destruct (io_fetchMailbox io (CDNServer (drs_Config st)) (URL v)
                  (usernameToMailbox X (Username c) (NumMailboxes v))) as [mb|] eqn:Hf.
      * rewrite (DialingProps.scanBloomFilter_run X io v (mkDState c tr) st mb Hr Hf). simpl.
        split_and!; try done. eexists. reflexivity.
      * unfold scanBloomFilter, bind, client, emit. simpl. rewrite Hr, Hf. simpl.
        split_and!; try done. by eexists.
    + unfold scanBloomFilter, bind, client, ret. simpl. rewrite Hr. simpl.
      split_and!; try done. exists []. by rewrite app_nil_r.
  - split_and!; try done. exists []. by rewrite app_nil_r.
Qed.

(** A newround for a round with no recorded state either records the
    round, with the client's current config as its config and the
    announced hash as the cached hash, or, when fetching the config chain
    fails, reports the error and leaves the client unchanged. It panics
    only when the fetched chain is empty or persisting the new config
    fails, and then the round stays unrecorded. *)
Theorem newDialingRound_fresh (X : Externals) (io : IO) (v : NewRound) (s : DState) :
  dialingRounds (cl s) !! nr_Round v = None ->
  match newDialingRound X io v s with
  | (Done _, s') =>
      (exists st, dialingRounds (cl s') !! nr_Round v = Some st /\
                  drs_Round st = nr_Round v /\
                  drs_ConfigParent st = dialingConfig (cl s') /\
                  drs_Config st = Inner (dialingConfig (cl s')) /\
                  dialingConfigHash (cl s') = nr_ConfigHash v) \/
      (cl s' = cl s /\
       trace s' = trace s ++ [EvFetchChain (dialingConfig (cl s)) (nr_ConfigHash v);
                              EvHandlerError "fetching dialing config"])
  | (Crash p, s') =>
      dialingRounds (cl s') !! nr_Round v = None /\
      (p = "index out of range"%string \/ exists e, p = ("failed to persist state: " ++ e)%string)
  end.
Proof.
  destruct s as [c tr]. simpl. intros Hnone.
  unfold newDialingRound, bind, client, emit, ret, put_client, crash. simpl. rewrite Hnone.
  repeat (case_match; simplify_eq/=; persist_frame); simpl.
  - left. eexists. split; [by rewrite lookup_insert_eq|].
    split_and!; try done. symmetry. by apply String.eqb_eq.
  - split; [done|]. by left.
  - split; [done|]. right. by eexists.
  - left. eexists. split; [by rewrite lookup_insert_eq|]. by split_and!.
  - right. split; [done|]. by rewrite <- app_assoc.
Qed.

(** A mix event on a configured round whose service data parses and whose
    every mixer signature verifies sends exactly one onion and records the
    round as the last dialing round. With no queued call the onion carries
    cover traffic (mailbox 0, zero token); otherwise the first queued call
    is taken off the queue, reported as being sent with sentRound set to
    the round, and its token and mailbox go into the onion. *)
Theorem sendDialingOnion_sends (X : Externals) (v : MixRound) (s : DState)
    (st : dialingRoundState) (sd : ServiceData) :
  let round := ms_Round (mr_MixSettings v) in
  let keys := OnionKeys (mr_MixSettings v) in
  dialingRounds (cl s) !! round = Some st ->
  ServiceData_Unmarshal X (RawServiceData (mr_MixSettings v)) = Some sd ->
  (forall j mixer, MixServers (drs_Config st) !! j = Some mixer ->
     exists sig, MixSignatures v !! j = Some sig /\
       ed25519_Verify X (mixer_Key mixer) (SigningMessage X (mr_MixSettings v)) sig = true) ->
  sendDialingOnion X v s =
    match outgoingCalls (cl s) with
    | [] =>
        (Done tt, mkDState (set_lastDialingRound (cl s) round)
           (trace s ++ [EvSend "onion"
              (mkOnionMsg round (onion_Seal X (mkMixMessage 0 zeroToken) round keys))]))
    | call :: rest =>
        let call1 := mkOutgoingCall (oc_Username call) (oc_Intent call) round in
        (Done tt, mkDState (set_outgoingCalls (set_lastDialingRound (cl s) round) rest)
           (trace s ++ [EvHandlerSendingCall call1;
                        EvSend "onion" (mkOnionMsg round
                          (onion_Seal X
                             (mkMixMessage (usernameToMailbox X (oc_Username call1)
                                              (sd_NumMailboxes sd))
                                           (computeKeys_token X call1))
                             round keys))]))
    end.
Proof.
  simpl. intros Hr Hsd Hall. destruct s as [c tr]. simpl in *.
  unfold sendDialingOnion, bind, client. simpl. rewrite Hr, Hsd.
  rewrite (verifyMixers_all_ok X _ _ _ 0 Hall).
  unfold nextOutgoingCall, bind, client, put_client, emit, ret. simpl.
  destruct (outgoingCalls c) as [|call rest]; simpl; [done|].
  by rewrite <- app_assoc.
Qed.

(** A mailbox event for a round with no recorded state does nothing at
    all; one whose mailbox download fails only reports the error: in
    both cases the key wheel is neither erased nor written. *)
Theorem scanBloomFilter_early_exit (X : Externals) (io : IO) (v : MailboxURL) (s : DState) :
  (dialingRounds (cl s) !! mb_Round v = None ->
     scanBloomFilter X io v s = (Done tt, s)) /\
  (forall st, dialingRounds (cl s) !! mb_Round v = Some st ->
     io_fetchMailbox io (CDNServer (drs_Config st)) (URL v)
       (usernameToMailbox X (Username (cl s)) (NumMailboxes v)) = None ->
     scanBloomFilter X io v s
       = (Done tt, mkDState (cl s) (trace s ++ [EvHandlerError "fetching mailbox"]))).
Proof.
  destruct s as [c tr]. simpl. split.
  - intros Hr. unfold scanBloomFilter, bind, client, ret. simpl. by rewrite Hr.
  - intros st Hr Hf. unfold scanBloomFilter, bind, client, emit. simpl. by rewrite Hr, Hf.
Qed.

(** A mailbox event whose mailbox decodes to the filter f notifies the
    application of exactly the calls whose dial token is in f: one
    ReceivedCall per user of IncomingDialTokens and intent j whose j-th
    token passes filter.Test, in the order of users and intents and with no
    repetition, carrying the session key of the wheel as it was before the
    round's keys were erased; the key wheel is then written. *)
Theorem scanBloomFilter_notifies (X : Externals) (io : IO) (v : MailboxURL) (s : DState)
    (st : dialingRoundState) (mailbox : bytes) (f : bloomFilter) :
  dialingRounds (cl s) !! mb_Round v = Some st ->
  io_fetchMailbox io (CDNServer (drs_Config st)) (URL v)
    (usernameToMailbox X (Username (cl s)) (NumMailboxes v)) = Some mailbox ->
  bloom_UnmarshalBinary X mailbox = Some f ->
  exists calls,
    trace (snd (scanBloomFilter X io v s))
      = trace s ++ calls ++ [EvWriteKeywheel (KeywheelPersistPath (cl s))
                               (EraseKeys X (wheel (cl s)) (mb_Round v))
                               (io_WriteFileAtomic io (KeywheelPersistPath (cl s)))] /\
    calls = concat (map (fun user =>
              concat (imap (fun j token =>
                              if bloom_Test X f token
                              then [EvHandlerReceivedCall
                                      (mkIncomingCall (FromUsername user) (Z.of_nat j)
                                         (SessionKey X (wheel (cl s)) (FromUsername user)
                                            (mb_Round v)))]
                              else []) (Tokens user)))
              (IncomingDialTokens X (wheel (cl s)) (Username (cl s)) (mb_Round v) (IntentMax X))) /\
    (forall ev, In ev calls <->
       exists user j token,
         In user (IncomingDialTokens X (wheel (cl s)) (Username (cl s)) (mb_Round v)
                    (IntentMax X)) /\
         Tokens user !! j = Some token /\
         bloom_Test X f token = true /\
         ev = EvHandlerReceivedCall
                (mkIncomingCall (FromUsername user) (Z.of_nat j)
                   (SessionKey X (wheel (cl s)) (FromUsername user) (mb_Round v)))).
Proof.
  intros Hr Hf Hdec.
  rewrite (DialingProps.scanBloomFilter_run X io v s st mailbox Hr Hf), Hdec. simpl.
  eexists. split; [reflexivity|]. split; [apply receivedCalls_concat|].
  intros ev. apply In_receivedCalls.
Qed.

(** persistLocked attempts the key-wheel write even after the client
    state write failed, and then returns the client write's error; with
    neither path set it writes nothing and reports no error. *)
Theorem persistLocked_errors (io : IO) (s : DState) :
  (ClientPersistPath (cl s) <> ""%string ->
   KeywheelPersistPath (cl s) <> ""%string ->
   io_WriteFileAtomic io (ClientPersistPath (cl s)) = false ->
   persistLocked io s =
     (Done (Some "write client state"%string),
      mkDState (cl s) (trace s ++
        [EvWriteClient (ClientPersistPath (cl s)) false;
         EvWriteKeywheel (KeywheelPersistPath (cl s)) (wheel (cl s))
           (io_WriteFileAtomic io (KeywheelPersistPath (cl s)))]))) /\
  (ClientPersistPath (cl s) = ""%string ->
   KeywheelPersistPath (cl s) = ""%string ->
   persistLocked io s = (Done None, s)).
Proof.
  destruct s as [c tr]. simpl. split.
  - intros Hc Hk Hw.
    unfold persistLocked, persistClient, persistKeywheel, bind, client, emit, ret; simpl.
    rewrite decide_True by done. simpl. rewrite Hw. simpl.
    rewrite decide_True by done. simpl. by rewrite <- app_assoc.
  - intros Hc Hk. unfold persistLocked, bind, client, ret; simpl.
    rewrite decide_False by (rewrite Hc; auto). simpl.
    by rewrite decide_False by (rewrite Hk; auto).
Qed.

Import DialingSamples.

Lemma newDialingRound_fresh_witness :
  let X := dialX in let io := ioOk [] in let v := mkNewRound 6 "H1" in let s := state0 in
  dialingRounds (cl s) !! nr_Round v = None /\
  match newDialingRound X io v s with
  | (Done _, s') =>
      (exists st, dialingRounds (cl s') !! nr_Round v = Some st /\
                  drs_Round st = nr_Round v /\
                  drs_ConfigParent st = dialingConfig (cl s') /\
                  drs_Config st = Inner (dialingConfig (cl s')) /\
                  dialingConfigHash (cl s') = nr_ConfigHash v) \/
      (cl s' = cl s /\
       trace s' = trace s ++ [EvFetchChain (dialingConfig (cl s)) (nr_ConfigHash v);
                              EvHandlerError "fetching dialing config"])
  | (Crash p, s') =>
      dialingRounds (cl s') !! nr_Round v = None /\
      (p = "index out of range"%string \/ exists e, p = ("failed to persist state: " ++ e)%string)
  end.
Proof.
  intros X io v s.
  assert (H : dialingRounds (cl s) !! nr_Round v = None) by (vm_compute; reflexivity).
  split; [exact H|exact (newDialingRound_fresh X io v s H)].
Defined.

Lemma sendDialingOnion_sends_witness :
  let X := dialX in let v := mixGood in let s := state0 in
  let st := mkDialingRoundState 5 (Inner cfgA) cfgA in
  let sd := mkServiceData 7 in
  let round := ms_Round (mr_MixSettings v) in
  let keys := OnionKeys (mr_MixSettings v) in
  dialingRounds (cl s) !! round = Some st /\
  ServiceData_Unmarshal X (RawServiceData (mr_MixSettings v)) = Some sd /\
  sendDialingOnion X v s =
    (Done tt, mkDState (set_lastDialingRound (cl s) round)
       (trace s ++ [EvSend "onion"
          (mkOnionMsg round (onion_Seal X (mkMixMessage 0 zeroToken) round keys))])).
Proof.
  intros X v s st sd round keys.
  assert (H1 : dialingRounds (cl s) !! round = Some st) by (vm_compute; reflexivity).
  assert (H2 : ServiceData_Unmarshal X (RawServiceData (mr_MixSettings v)) = Some sd)
    by (vm_compute; reflexivity).
  split; [exact H1|]. split; [exact H2|].
  apply (sendDialingOnion_sends X v s st sd H1 H2).
  intros j mixer Hm. exists (goodSig j).
  destruct j as [|[|[|j]]]; vm_compute in Hm; try discriminate;
    injection Hm as <-; split; vm_compute; reflexivity.
Defined.

Lemma scanBloomFilter_notifies_witness :
  let X := dialX in let io := ioOk [Byte.x01] in let v := mailbox5 in let s := state0 in
  let st := mkDialingRoundState 5 (Inner cfgA) cfgA in
  let mailbox := [Byte.x01] in let f := mkBloomFilter 1 [Byte.x01] in
  dialingRounds (cl s) !! mb_Round v = Some st /\
  io_fetchMailbox io (CDNServer (drs_Config st)) (URL v)
    (usernameToMailbox X (Username (cl s)) (NumMailboxes v)) = Some mailbox /\
  bloom_UnmarshalBinary X mailbox = Some f /\
  exists calls,
    trace (snd (scanBloomFilter X io v s))
      = trace s ++ calls ++ [EvWriteKeywheel (KeywheelPersistPath (cl s))
                               (EraseKeys X (wheel (cl s)) (mb_Round v))
                               (io_WriteFileAtomic io (KeywheelPersistPath (cl s)))] /\
    calls = concat (map (fun user =>
              concat (imap (fun j token =>
                              if bloom_Test X f token
                              then [EvHandlerReceivedCall
                                      (mkIncomingCall (FromUsername user) (Z.of_nat j)
                                         (SessionKey X (wheel (cl s)) (FromUsername user)
                                            (mb_Round v)))]
                              else []) (Tokens user)))
              (IncomingDialTokens X (wheel (cl s)) (Username (cl s)) (mb_Round v) (IntentMax X))) /\
    (forall ev, In ev calls <->
       exists user j token,
         In user (IncomingDialTokens X (wheel (cl s)) (Username (cl s)) (mb_Round v)
                    (IntentMax X)) /\
         Tokens user !! j = Some token /\
         bloom_Test X f token = true /\
         ev = EvHandlerReceivedCall
                (mkIncomingCall (FromUsername user) (Z.of_nat j)
                   (SessionKey X (wheel (cl s)) (FromUsername user) (mb_Round v)))).
Proof.
  intros X io v s st mailbox f.
  assert (H1 : dialingRounds (cl s) !! mb_Round v = Some st) by (vm_compute; reflexivity).
  assert (H2 : io_fetchMailbox io (CDNServer (drs_Config st)) (URL v)
                 (usernameToMailbox X (Username (cl s)) (NumMailboxes v)) = Some mailbox)
    by (vm_compute; reflexivity).
  assert (H3 : bloom_UnmarshalBinary X mailbox = Some f) by (vm_compute; reflexivity).
  split; [exact H1|]. split; [exact H2|]. split; [exact H3|].
  exact (scanBloomFilter_notifies X io v s st mailbox f H1 H2 H3).
Defined.

End DialingExtraProps.

(** * Properties of persist.go *)
Module PersistProps.
Import Persist.

Section Props.
Context {CS IF OF SF PC : Type}.
Implicit Types (X : Externals CS IF OF SF PC) (c : Client CS IF OF SF PC).

Lemma setClient_dropClient {A} (a : Z) (l : list (option (Req A))) :
  Forall is_Some l ->
  setClient a (dropClient l) = Some (map (option_map (fun r => mkReq (req_body r) (Some a))) l).
Proof.
  induction l as [|o l IH]; intros Hall; simpl; [done|].
  inversion Hall as [|? ? [r ->] Hrest]; subst. simpl. by rewrite IH.
Qed.

Lemma setClient_nil {A} (a : Z) (l : list (option (Req A))) :
  In None l -> setClient a l = None.
Proof.
  induction l as [|o l IH]; simpl; [done|].
  intros [Heq|Hin]; [by subst|]. destruct o; [|done]. by rewrite IH.
Qed.

(** Saving the client state with persistClient and loading the written
    file with LoadClient gives back the persisted fields: username, key
    pair, connection settings, friend requests, friends and registrations;
    every friend and friend request points back to the new client, whose
    ClientPersistPath is the file's path and whose KeywheelPersistPath is
    empty. This holds when encoding/json decodes what it encoded (up to
    the unexported back pointers) and no friend request is nil. *)
Theorem persistClient_LoadClient_roundtrip X c (fs fs' : FS) (a : Z) :
  (forall st data, json_MarshalIndent X st = Some data -> json_Unmarshal X data = Some (jsonView st)) ->
  Forall is_Some (incomingFriendRequests c) ->
  Forall is_Some (outgoingFriendRequests c) ->
  Forall is_Some (sentFriendRequests c) ->
  persistClient X c fs = (ROk tt, fs') ->
  exists c',
    LoadClient X fs' (ClientPersistPath c) a = ROk c' /\
    addr c' = a /\
    Username c' = Username c /\
    LongTermPublicKey c' = LongTermPublicKey c /\
    LongTermPrivateKey c' = LongTermPrivateKey c /\
    ConnectionSettings_ c' = ConnectionSettings_ c /\
    incomingFriendRequests c'
      = map (option_map (fun r => mkReq (req_body r) (Some a))) (incomingFriendRequests c) /\
    outgoingFriendRequests c'
      = map (option_map (fun r => mkReq (req_body r) (Some a))) (outgoingFriendRequests c) /\
    sentFriendRequests c'
      = map (option_map (fun r => mkReq (req_body r) (Some a))) (sentFriendRequests c) /\
    friends c'
      = fmap (M:=gmap string)
          (option_map (fun f => mkFriend (friend_Username f) (friend_LongTermKey f)
                                         (friend_extraData f) (Some a)))
          (friends c) /\
    registrations c' = registrations c /\
    ClientPersistPath c' = ClientPersistPath c /\
    KeywheelPersistPath c' = ""%string.
Proof.
  intros Hjson Hin Hout Hsent. unfold persistClient.
  case_bool_decide as Hfr; [|done].
  destruct (json_MarshalIndent X _) as [data|] eqn:Hm; [|done].
  destruct (WriteFileAtomic_ok X (ClientPersistPath c)); [|done].
  intros [= <-]. apply Hjson in Hm.
  unfold LoadClient. unfold FS in *. rewrite (lookup_insert_eq (M:=gmap string)), Hm.
  unfold loadStateLocked, jsonView; simpl.
  rewrite !setClient_dropClient by done.
  rewrite bool_decide_true.
  2:{ intros k o Hk. rewrite lookup_fmap in Hk.
      destruct (friends c !! k) as [of|] eqn:Hc; simplify_eq/=.
      destruct (Hfr k of Hc) as [f ->]. by eexists. }
  eexists. split; [reflexivity|]. simpl. split_and!; try done.
  apply map_eq. intros k. rewrite !lookup_fmap.
  destruct (friends c !! k) as [[f|]|] eqn:Hc; simpl; [done| |done].
  by destruct (Hfr k None Hc).
Qed.

(** LoadClient reports an error when the file cannot be read or does not
    decode, and panics when the decoded state holds a nil friend or a nil
    friend request (JSON null), which loadStateLocked dereferences. *)
Theorem LoadClient_failures X (fs : FS) (path : string) (a : Z) :
  (fs !! path = None -> exists msg, LoadClient X fs path a = RErr msg) /\
  (forall data, fs !! path = Some data -> json_Unmarshal X data = None ->
     exists msg, LoadClient X fs path a = RErr msg) /\
  (forall data st, fs !! path = Some data -> json_Unmarshal X data = Some st ->
     ((exists k, ps_Friends st !! k = Some None) \/
      In None (ps_IncomingFriendRequests st) \/
      In None (ps_OutgoingFriendRequests st) \/
      In None (ps_SentFriendRequests st)) ->
     LoadClient X fs path a = RPanic "nil pointer dereference").
Proof.
  unfold LoadClient. split_and!.
  - intros ->. by eexists.
  - intros data -> ->. by eexists.
  - intros data st -> -> Hnil. unfold loadStateLocked. simpl.
    destruct Hnil as [[k Hk]|Hn]; repeat case_match; try done.
    2:{ destruct Hn as [Hn|[Hn|Hn]]; pose proof (setClient_nil a _ Hn); congruence. }
    exfalso. match goal with H : bool_decide _ = true |- _ => apply bool_decide_eq_true in H end.
    match goal with H : map_Forall _ _ |- _ => destruct (H k None Hk) as [? ?] end. done.
Qed.

End Props.

Import PersistSamples.

Lemma persistClient_LoadClient_roundtrip_witness :
  let X := persistX in let c := sampleClient in let fs : FS := ∅ in
  let fs' : FS := <[ "client.json"%string := b "state" ]> ∅ in let a := 43%Z in
  (forall st data, json_MarshalIndent X st = Some data -> json_Unmarshal X data = Some (jsonView st)) /\
  Forall is_Some (incomingFriendRequests c) /\
  Forall is_Some (outgoingFriendRequests c) /\
  Forall is_Some (sentFriendRequests c) /\
  persistClient X c fs = (ROk tt, fs') /\
  exists c',
    LoadClient X fs' (ClientPersistPath c) a = ROk c' /\
    addr c' = a /\
    Username c' = Username c /\
    LongTermPublicKey c' = LongTermPublicKey c /\
    LongTermPrivateKey c' = LongTermPrivateKey c /\
    ConnectionSettings_ c' = ConnectionSettings_ c /\
    incomingFriendRequests c'
      = map (option_map (fun r => mkReq (req_body r) (Some a))) (incomingFriendRequests c) /\
    outgoingFriendRequests c'
      = map (option_map (fun r => mkReq (req_body r) (Some a))) (outgoingFriendRequests c) /\
    sentFriendRequests c'
      = map (option_map (fun r => mkReq (req_body r) (Some a))) (sentFriendRequests c) /\
    friends c'
      = fmap (M:=gmap string)
          (option_map (fun f => mkFriend (friend_Username f) (friend_LongTermKey f)
                                         (friend_extraData f) (Some a)))
          (friends c) /\
    registrations c' = registrations c /\
    ClientPersistPath c' = ClientPersistPath c /\
    KeywheelPersistPath c' = ""%string.
Proof.
  intros X c fs fs' a.
  assert (Hj : forall st data, json_MarshalIndent X st = Some data ->
                               json_Unmarshal X data = Some (jsonView st)).
  { intros st data H. unfold X, persistX in H; simpl in H.
    destruct (decide (st = sampleState)) as [->|]; [|discriminate].
    injection H as <-. vm_compute. reflexivity. }
  assert (Hi : Forall is_Some (incomingFriendRequests c)) by (repeat constructor; by eexists).
  assert (Ho : Forall is_Some (outgoingFriendRequests c)) by (repeat constructor; by eexists).
  assert (Hs : Forall is_Some (sentFriendRequests c)) by (repeat constructor; by eexists).
  assert (Hp : persistClient X c fs = (ROk tt, fs')) by (vm_compute; reflexivity).
  split_and!; try assumption.
  exact (persistClient_LoadClient_roundtrip X c fs fs' a Hj Hi Ho Hs Hp).
Defined.

End PersistProps.

(** * Properties of the mixer's main *)
Module MixerProps.
Import Mixer.

(** With -init, main never reads a config file, never fetches a config
    and never listens: the only file it writes is mixer-init.conf, with
    permissions 0600, holding the template rendered over a freshly
    generated key pair, listen address 0.0.0.0:28000 and Laplace noise
    (Mu 100, B 3.0) for both services; it never takes the os.Exit(1)
    of a missing -conf. *)
Theorem main_init (X : Externals) (confPath : string) :
  match main X true confPath [] with
  | (e, evs) =>
    (forall ev, In ev evs ->
       (exists pk sk data,
          ed25519_GenerateKey X = Some (pk, sk) /\
          template_Execute X (mkConfig pk sk "0.0.0.0:28000"
                                (DefaultLogsDir X "alpenhorn-mixer" pk)
                                (mkLaplace 100 3.0) (mkLaplace 100 3.0)) = Some data /\
          ev = EvWriteFile "mixer-init.conf" data perm0600) \/
       ev = EvPrint "wrote mixer-init.conf
") /\
    (forall code, e <> inr (Exited code))
  end.
Proof.
  unfold main, writeNewConfig, bind, stop, emit, ret.
  destruct (ed25519_GenerateKey X) as [[pk sk]|] eqn:Hk; simpl.
  2:{ split; [intros ev []|intros ? ?; congruence]. }
  destruct (template_Execute X _) as [data|] eqn:Ht; simpl.
  2:{ split; [intros ev []|intros ? ?; congruence]. }
  destruct (WriteFile_ok X "mixer-init.conf"); simpl;
    (split; [|intros ? ?; congruence]); intros ev Hev;
    repeat destruct Hev as [Hev|Hev]; subst; try done; try (by right);
    left; by exists pk, sk, data.
Qed.

(** Without -init, main never returns normally: with no -conf it prints
    the usage line and exits with status 1 before any file access. It
    listens only after reading and parsing the config file and fetching
    the AddFriend config, and then the whole run is: read the config,
    fetch the AddFriend config, register a mixnet server that signs with
    the configured private key for both services and takes the
    coordinator key of the AddFriend config, listen on the configured
    address, and serve if listening succeeded; it ends in log.Fatal with
    the Serve error or the net.Listen error. *)
Theorem main_serve (X : Externals) (confPath : string) :
  match main X false confPath [] with
  | (e, evs) =>
    e <> inl tt /\
    (confPath = ""%string ->
       e = inr (Exited 1) /\ evs = [EvPrint "specify config file with -conf
"]) /\
    (forall addr, In (EvListen addr) evs ->
       exists data conf key,
         ReadFile X confPath = Some data /\
         toml_Unmarshal X data = Some conf /\
         CurrentConfig X "AddFriend" = Some (Some key) /\
         addr = ListenAddr conf /\
         evs = [EvReadFile confPath;
                EvFetchConfig "AddFriend";
                EvRegister
                  (mkMixnetServer (PrivateKey conf) key
                     [("AddFriend"%string, AddFriendMixer (PrivateKey conf) (AddFriendNoise conf));
                      ("Dialing"%string, DialingMixer (PrivateKey conf) (DialingNoise conf))])
                  (PrivateKey conf);
                EvListen addr]
               ++ (if net_Listen_ok X addr then [EvServe] else []) /\
         e = inr (Fatal (if net_Listen_ok X addr
                         then ("Shutdown: " ++ Serve_error X)%string
                         else "net.Listen"%string)))
  end.
Proof.
  unfold main, bind, stop, emit, ret.
  destruct (String.eqb_spec confPath "") as [->|Hne]; simpl.
  { split_and!; [done|done|]. intros addr Hin. simpl in Hin. intuition congruence. }
  destruct (ReadFile X confPath) as [data|] eqn:Hr; simpl.
  2:{ split_and!; [done|intros; congruence|]. intros addr Hin. simpl in Hin. intuition congruence. }
  destruct (toml_Unmarshal X data) as [conf|] eqn:Hc; simpl.
  2:{ split_and!; [done|intros; congruence|]. intros addr Hin. simpl in Hin. intuition congruence. }
  destruct (CurrentConfig X "AddFriend") as [[key|]|] eqn:Hcc; simpl.
  2,3:(split_and!; [done|intros; congruence|]; intros addr Hin; simpl in Hin; intuition congruence).
  destruct (net_Listen_ok X (ListenAddr conf)) eqn:Hl; simpl;
    (split_and!; [done|intros; congruence|]); intros addr Hin;
    (assert (addr = ListenAddr conf) as -> by (simpl in Hin; intuition congruence));
    exists data, conf, key; rewrite Hl; split_and!; done.
Qed.

End MixerProps.
